(** * Education dashboard: the filtering and aggregation logic of
      [app.py] and [heatmap.py], embedded in Rocq.

    Both files are Streamlit scripts: straight-line Python over a pandas
    frame, re-run from the top on every interaction.  The embedding keeps
    that shape.

    - A frame is its list of numeric column labels and its rows, in index
      order.  The columns [country] and [year] are fields of every row.
    - A cell holds the decimal written in the file, a rational; [None] is
      pandas' missing value (NaN).  What is proved over these rationals
      does not depend on rounding (which rows, which groups, which values
      are missing, which exception).  The numbers the program computes are
      doubles: module [Binary64] gives [calculate_delta] and [mean] with
      IEEE rounding, and the numeric scenario is stated there.
    - pandas calls (boolean indexing, [isin], [between], [mean],
      [groupby], [head], column assignment) are written out as list
      functions with the behaviour pandas documents for the arguments the
      scripts pass.
    - [sort_values] is called without [kind]; the sorting routine is a
      parameter of the model, constrained where needed by what pandas
      documents of it.
    - The sidebar widgets belong to the UI layer: a run starts from the
      values they return.
    - The script itself runs in a small state-and-exception monad over a
      store of objects and a namespace of Python variables, so that
      rebinding, in-place column assignment and unbound names are what they
      are in Python. *)

From Stdlib Require Import QArith Qabs Qround Permutation Sorted SpecFloat.
From stdpp Require Import base option list sorting strings gmap.

Open Scope string_scope.
Open Scope Z_scope.
Open Scope list_scope.

(** ** Data model *)

(** A cell of a numeric column: [None] is NaN. *)
Definition cell : Type := option Q.

(** One country-year observation.  [year] is the calendar year of the
    parsed date, [None] for a date that is missing (NaT).  [values] holds
    the numeric columns by label. *)
Record Row : Type := mkRow {
  country : string;
  year : option Z;
  values : gmap string cell
}.

(** A frame: numeric column labels and rows. *)
Record DataFrame : Type := mkFrame {
  columns : list string;
  rows : list Row
}.

(** The value of column [c] in row [r]; a label the row does not carry
    reads as NaN. *)
Definition get (c : string) (r : Row) : cell :=
  default None (values r !! c).

(** [len(df)] *)
Definition len (df : DataFrame) : nat := length (rows df).

(** ** Exceptions *)

Inductive exn : Type :=
| KeyError (label : string)
| NameError (name : string)
| IndexError
| TypeError
| ValueError
| StreamlitAPIException.

Inductive result (A : Type) : Type :=
| Ok (a : A)
| Raise (e : exn).
Arguments Ok {A} a.
Arguments Raise {A} e.

Definition rbind {A B} (r : result A) (k : A -> result B) : result B :=
  match r with
  | Ok a => k a
  | Raise e => Raise e
  end.

(** ** Series *)

Module Series.

(** Arithmetic on cells: NaN propagates. *)
Definition sub (a b : cell) : cell :=
  match a, b with
  | Some x, Some y => Some (x - y)%Q
  | _, _ => None
  end.

Definition mul (a b : cell) : cell :=
  match a, b with
  | Some x, Some y => Some (x * y)%Q
  | _, _ => None
  end.

(** Division; a zero divisor gives no rational (the scripts divide only
    behind a test that the divisor is not zero). *)
Definition div (a b : cell) : cell :=
  match a, b with
  | Some x, Some y => if Qeq_bool y 0 then None else Some (x / y)%Q
  | _, _ => None
  end.

(** [v != 0]: true for NaN, as in IEEE comparison. *)
Definition ne0 (v : cell) : bool :=
  match v with
  | Some x => negb (Qeq_bool x 0)
  | None => true
  end.

(** The values that are not NaN. *)
Definition dropna (s : list cell) : list Q := omap id s.

Definition sum (qs : list Q) : Q := fold_right Qplus 0%Q qs.

(** [s.mean()], with pandas' default [skipna=True]: NaN for a series
    without a value. *)
Definition mean (s : list cell) : cell :=
  match dropna s with
  | [] => None
  | qs => Some (sum qs / inject_Z (Z.of_nat (length qs)))%Q
  end.

(** [s.iloc[-k]] for [k >= 1]. *)
Definition iloc_neg (s : list cell) (k : nat) : result cell :=
  match rev s !! (k - 1)%nat with
  | Some v => Ok v
  | None => Raise IndexError
  end.

End Series.

(** [df[column]]: the column as a series, [KeyError] for an unknown
    label. *)
Definition getitem (df : DataFrame) (column : string) : result (list cell) :=
  if bool_decide (column ∈ columns df)
  then Ok (map (get column) (rows df))
  else Raise (KeyError column).

(** ** Filter ([app.py], lines 49-50) *)

(** [df['country'].isin(countries)] *)
Definition isin (countries : list string) (df : DataFrame) : list bool :=
  map (fun r => bool_decide (country r ∈ countries)) (rows df).

(** [df['year'].dt.year.between(lo, hi)]: both ends inclusive; a missing
    year compares false. *)
Definition between_year (lo hi : Z) (r : Row) : bool :=
  match year r with
  | Some y => (lo <=? y) && (y <=? hi)
  | None => false
  end.

Definition between (lo hi : Z) (df : DataFrame) : list bool :=
  map (between_year lo hi) (rows df).

(** [m1 & m2] on boolean series of one frame. *)
Definition mask_and (m1 m2 : list bool) : list bool := zip_with andb m1 m2.

(** [df[mask]]: a new frame with the rows whose mask entry is true. *)
Definition select (df : DataFrame) (mask : list bool) : DataFrame :=
  mkFrame (columns df)
          (map fst (List.filter snd (zip (rows df) mask))).

(** [data[(data['country'].isin(countries)) &
          (data['year'].dt.year.between(years[0], years[1]))]] *)
Definition Filter (data : DataFrame) (countries : list string)
    (yearLow yearHigh : Z) : DataFrame :=
  select data (mask_and (isin countries data) (between yearLow yearHigh data)).

(** [data[data['year'].dt.year.between(years[0], years[1])]]
    ([app.py] line 110, [heatmap.py] line 29). *)
Definition FilterYears (data : DataFrame) (yearLow yearHigh : Z) : DataFrame :=
  select data (between yearLow yearHigh data).

(** ** MetricSummary ([app.py], lines 17-24 and 59) *)

Definition calculate_delta (df : DataFrame) (column : string)
    : result (cell * cell) :=
  if (len df <? 2)%nat then Ok (Some 0%Q, Some 0%Q)
  else
    rbind (getitem df column) (fun s =>
    rbind (Series.iloc_neg s 1) (fun current_value =>
    rbind (Series.iloc_neg s 2) (fun previous_value =>
    let delta := Series.sub current_value previous_value in
    let delta_percent :=
      if Series.ne0 previous_value
      then Series.mul (Series.div delta previous_value) (Some 100%Q)
      else Some 0%Q in
    Ok (delta, delta_percent)))).

(** [filtered_data[metric].mean()] *)
Definition column_mean (df : DataFrame) (column : string) : result cell :=
  rbind (getitem df column) (fun s => Ok (Series.mean s)).

(** The three numbers of one metric card. *)
Definition MetricSummary (df : DataFrame) (column : string)
    : result (cell * cell * cell) :=
  rbind (column_mean df column) (fun value =>
  rbind (calculate_delta df column) (fun '(delta, delta_percent) =>
  Ok (value, delta, delta_percent))).

(** ** The same arithmetic in binary64

    A float64 column holds, for each decimal of the file, the double
    nearest to it, and [calculate_delta] and [mean] compute on these
    doubles with IEEE rounding.  This module gives lines 17-24 and 59
    that way, on the frame the rest of the model uses: a cell is rounded
    as the parser rounds it and the operations are those of the IEEE 754
    specification of the Standard Library. *)

Module Binary64.

Definition float64 : Type := spec_float.

Definition prec : Z := 53.
Definition emax : Z := 1024.

Definition add : float64 -> float64 -> float64 := SFadd prec emax.
Definition sub : float64 -> float64 -> float64 := SFsub prec emax.
Definition mul : float64 -> float64 -> float64 := SFmul prec emax.
Definition div : float64 -> float64 -> float64 := SFdiv prec emax.
Definition eqb : float64 -> float64 -> bool := SFeqb.

Definition zero : float64 := S754_zero false.
Definition nan : float64 := S754_nan.

(** The double of an integer. *)
Definition of_Z (z : Z) : float64 := binary_normalize prec emax z 0 false.

(** The double nearest to a decimal [n / 10^k] of at most fifteen
    digits: numerator and denominator are doubles, and their quotient is
    rounded once. *)
Definition of_Q (q : Q) : float64 :=
  div (of_Z (Qnum q)) (of_Z (Zpos (Qden q))).

Definition of_cell (c : cell) : float64 :=
  match c with
  | Some q => of_Q q
  | None => nan
  end.

(** The exact value of a double, when it is a number. *)
Definition to_Q (x : float64) : option Q :=
  match x with
  | S754_zero _ => Some 0%Q
  | S754_finite s m e =>
      Some ((if s then -1 else 1) * inject_Z (Zpos m) * (2 ^ e))%Q
  | _ => None
  end.

(** [x] is a number within [eps] of [q]. *)
Definition within (eps : Q) (x : float64) (q : Q) : Prop :=
  match to_Q x with
  | Some v => (Qabs (v - q) <= eps)%Q
  | None => False
  end.

Definition isnan (x : float64) : bool :=
  match x with
  | S754_nan => true
  | _ => false
  end.

(** [x != 0]: true for NaN. *)
Definition ne0 (x : float64) : bool := negb (eqb x zero).

Definition iloc_neg (s : list float64) (k : nat) : result float64 :=
  match rev s !! (k - 1)%nat with
  | Some v => Ok v
  | None => Raise IndexError
  end.

(** [df[column]] as the doubles the column holds. *)
Definition getitem (df : DataFrame) (column : string)
    : result (list float64) :=
  rbind (getitem df column) (fun s => Ok (map of_cell s)).

(** Lines 17-24. *)
Definition calculate_delta (df : DataFrame) (column : string)
    : result (float64 * float64) :=
  if (len df <? 2)%nat then Ok (zero, zero)
  else
    rbind (getitem df column) (fun s =>
    rbind (iloc_neg s 1) (fun current_value =>
    rbind (iloc_neg s 2) (fun previous_value =>
    let delta := sub current_value previous_value in
    let delta_percent :=
      if ne0 previous_value
      then mul (div delta previous_value) (of_Z 100)
      else zero in
    Ok (delta, delta_percent)))).

(** [s.mean()]: the values that are not NaN, added in index order and
    divided by their number.  (This is the order in which numpy adds a
    series of fewer than eight entries; it adds longer ones in blocks,
    which this definition does not follow.) *)
Definition mean (s : list float64) : float64 :=
  match List.filter (fun x => negb (isnan x)) s with
  | [] => nan
  | present =>
      div (fold_left add present zero) (of_Z (Z.of_nat (length present)))
  end.

(** Line 59. *)
Definition column_mean (df : DataFrame) (column : string) : result float64 :=
  rbind (getitem df column) (fun s => Ok (mean s)).

(** The three numbers of one metric card, as computed. *)
Definition MetricSummary (df : DataFrame) (column : string)
    : result (float64 * float64 * float64) :=
  rbind (column_mean df column) (fun value =>
  rbind (calculate_delta df column) (fun '(delta, delta_percent) =>
  Ok (value, delta, delta_percent))).

End Binary64.

(** ** GroupMean ([app.py] lines 118 and 145-147, [heatmap.py] lines 37, 51) *)

#[global] Instance Q_eq_dec : EqDecision Q.
Proof. solve_decision. Defined.

Section GroupBy.
Context {K : Type} `{EqDecision K}.
(** The order pandas sorts the group keys by ([sort=True]). *)
Variable le : K -> K -> bool.
(** The group key of a row; [None] when a key column holds NaN: with
    pandas' default [dropna=True] such a row belongs to no group. *)
Variable key : Row -> option K.

Definition group_keys (rs : list Row) : list K :=
  merge_sort (fun a b => Is_true (le a b)) (remove_dups (omap key rs)).

(** The rows of one group, in frame order. *)
Definition group_rows (k : K) (rs : list Row) : list Row :=
  List.filter (fun r => bool_decide (key r = Some k)) rs.

(** [.groupby(by)[column].mean().reset_index()] on the rows. *)
Definition group_mean (column : string) (rs : list Row) : list (K * cell) :=
  map (fun k => (k, Series.mean (map (get column) (group_rows k rs))))
      (group_keys rs).
End GroupBy.

(** Grouping by ['country']. *)
Definition by_country (r : Row) : option string := Some (country r).

(** Grouping by [['country', 'latitude', 'longitude']].  Coordinates are
    compared as numbers, hence reduced to lowest terms. *)
Definition GeoKey : Type := string * Q * Q.

Definition by_country_lat_lon (r : Row) : option GeoKey :=
  match get "latitude" r, get "longitude" r with
  | Some la, Some lo => Some (country r, Qred la, Qred lo)
  | _, _ => None
  end.

Definition Q_compare_lex (a b : Q) (next : comparison) : comparison :=
  match (a ?= b)%Q with
  | Eq => next
  | c => c
  end.

Definition geo_le (a b : GeoKey) : bool :=
  let '(c1, la1, lo1) := a in
  let '(c2, la2, lo2) := b in
  match String.compare c1 c2 with
  | Lt => true
  | Gt => false
  | Eq => match Q_compare_lex la1 la2 (Q_compare_lex lo1 lo2 Eq) with
          | Gt => false
          | _ => true
          end
  end.

(** [view.groupby('country')[column].mean().reset_index()] *)
Definition GroupMean (view : DataFrame) (column : string)
    : result (list (string * cell)) :=
  if bool_decide (column ∈ columns view)
  then Ok (group_mean String.leb by_country column (rows view))
  else Raise (KeyError column).

(** [view.groupby(['country', 'latitude', 'longitude'])[column].mean()
         .reset_index()] *)
Definition GroupMeanGeo (view : DataFrame) (column : string)
    : result (list (GeoKey * cell)) :=
  if negb (bool_decide ("latitude" ∈ columns view))
  then Raise (KeyError "latitude")
  else if negb (bool_decide ("longitude" ∈ columns view))
  then Raise (KeyError "longitude")
  else if bool_decide (column ∈ columns view)
  then Ok (group_mean geo_le by_country_lat_lon column (rows view))
  else Raise (KeyError column).

(** ** CompositeScore ([app.py] lines 132-141) *)

Definition indicators : list string :=
  [ "pri_comp_rate_pct"; "school_enrol_primary_pct";
    "school_enrol_secondary_pct"; "school_enrol_tertiary_pct" ].

(** [all(indicator in view.columns for indicator in indicators)] *)
Definition has_indicators (view : DataFrame) : bool :=
  forallb (fun indicator => bool_decide (indicator ∈ columns view)) indicators.

(** [view[labels].mean(axis=1)]: per row, the mean of the listed cells
    that are not NaN. *)
Definition row_means (view : DataFrame) (labels : list string)
    : result (list cell) :=
  match List.find (fun c => negb (bool_decide (c ∈ columns view))) labels with
  | Some c => Raise (KeyError c)
  | None =>
      Ok (map (fun r => Series.mean (map (fun c => get c r) labels)) (rows view))
  end.

Definition set_cell (label : string) (v : cell) (r : Row) : Row :=
  mkRow (country r) (year r) (<[label := v]> (values r)).

(** [view[label] = s], as the frame it leaves behind. *)
Definition setitem (view : DataFrame) (label : string) (s : list cell)
    : DataFrame :=
  mkFrame (if bool_decide (label ∈ columns view) then columns view
           else columns view ++ [label])
          (zip_with (set_cell label) s (rows view)).

(** ** TopN ([app.py] lines 148 and 158) *)

(** Descending order of scores with NaN last, the order
    [sort_values(by='composite_metric', ascending=False)] produces
    ([na_position='last']). *)
Definition score_ge (a b : cell) : Prop :=
  match a, b with
  | _, None => True
  | None, Some _ => False
  | Some x, Some y => (y <= x)%Q
  end.

Definition scored_ge (a b : string * cell) : Prop := score_ge a.2 b.2.

#[global] Instance score_ge_dec (a b : cell) : Decision (score_ge a b).
Proof.
  destruct a as [x|], b as [y|]; simpl; try apply _.
  unfold Qle. apply _.
Defined.

#[global] Instance scored_ge_dec (a b : string * cell) : Decision (scored_ge a b).
Proof. unfold scored_ge. apply _. Defined.

(** [.head(n)] *)
Definition head {A} (n : nat) (l : list A) : list A := take n l.

(** What pandas documents of [sort_values] when, as here, no [kind] is
    passed (the default is 'quicksort', for which no order among equal
    keys is documented): the result is a rearrangement of the rows, in
    descending order of score with NaN last. *)
Definition sort_contract
    (sort_values : list (string * cell) -> list (string * cell)) : Prop :=
  forall g, sort_values g ≡ₚ g /\ StronglySorted scored_ge (sort_values g).

Definition TopN (sort_values : list (string * cell) -> list (string * cell))
    (n : nat) (groupedScores : list (string * cell)) : list (string * cell) :=
  head n (sort_values groupedScores).

(** ** Running a script *)

(** What a run puts on the page.  Titles and number formats are the
    rendering layer's: an element carries the data it is drawn from. *)
Inductive element : Type :=
| Title (s : string)
| Subheader (s : string)
| Markdown (s : string)
| Metric (label : string) (value delta delta_percent : cell)
| BarChart (y : string) (view : DataFrame)
| LineChart (y : string) (view : DataFrame)
| DataframeView (view : DataFrame)
| Choropleth (color : string) (g : list (string * cell))
| ScatterGeo (color : string) (g : list (GeoKey * cell))
| ErrorBox (msg : string)
| TopBarChart (g : list (string * cell)).

(** Python objects the scripts hold in variables. *)
Inductive obj : Type :=
| Frame (df : DataFrame)
| Grouped (g : list (string * cell))
| GroupedGeo (g : list (GeoKey * cell)).

(** The interpreter's state: the objects by address, the module
    namespace (variable to address), the next free address, and the page
    rendered so far. *)
Record state : Type := mkState {
  heap : gmap nat obj;
  names : gmap string nat;
  next : nat;
  page : list element
}.

(** A statement: it changes the state and returns or raises.  What was
    rendered before an exception stays on the page. *)
Definition M (A : Type) : Type := state -> state * result A.

#[global] Instance M_ret : MRet M := fun A a st => (st, Ok a).

#[global] Instance M_bind : MBind M := fun A B k m st =>
  match m st with
  | (st', Ok a) => k a st'
  | (st', Raise e) => (st', Raise e)
  end.

Definition raise {A} (e : exn) : M A := fun st => (st, Raise e).

Definition lift {A} (r : result A) : M A := fun st => (st, r).

(** A new object. *)
Definition alloc (o : obj) : M nat := fun st =>
  (mkState (<[next st := o]> (heap st)) (names st) (S (next st)) (page st),
   Ok (next st)).

Definition bind_name (x : string) (l : nat) : M unit := fun st =>
  (mkState (heap st) (<[x := l]> (names st)) (next st) (page st), Ok tt).

(** [x = e], where evaluating [e] builds the new object [o]. *)
Definition assign (x : string) (o : obj) : M unit :=
  l ← alloc o; bind_name x l.

(** Reading variable [x]: [NameError] when it is not bound. *)
Definition deref (x : string) : M obj := fun st =>
  match names st !! x with
  | Some l =>
      match heap st !! l with
      | Some o => (st, Ok o)
      | None => (st, Raise (NameError x))
      end
  | None => (st, Raise (NameError x))
  end.

Definition frame_of (x : string) : M DataFrame :=
  o ← deref x;
  match o with
  | Frame df => mret df
  | _ => raise TypeError
  end.

Definition grouped_of (x : string) : M (list (string * cell)) :=
  o ← deref x;
  match o with
  | Grouped g => mret g
  | _ => raise TypeError
  end.

Definition geo_of (x : string) : M (list (GeoKey * cell)) :=
  o ← deref x;
  match o with
  | GroupedGeo g => mret g
  | _ => raise TypeError
  end.

(** In-place change of the frame that [x] names: every variable bound to
    the same object sees it. *)
Definition update (x : string) (f : DataFrame -> DataFrame) : M unit := fun st =>
  match names st !! x with
  | Some l =>
      match heap st !! l with
      | Some (Frame df) =>
          (mkState (<[l := Frame (f df)]> (heap st)) (names st) (next st)
                   (page st), Ok tt)
      | _ => (st, Raise TypeError)
      end
  | None => (st, Raise (NameError x))
  end.

(** [st.title], [st.metric], [st.altair_chart], ...: one more element. *)
Definition st_write (e : element) : M unit := fun st =>
  (mkState (heap st) (names st) (next st) (page st ++ [e]), Ok tt).

(** [st.columns(n)] refuses a specification without columns. *)
Definition st_columns (n : nat) : M unit :=
  if (n =? 0)%nat then raise StreamlitAPIException else mret tt.

Fixpoint for_each {A} (l : list A) (body : A -> M unit) : M unit :=
  match l with
  | [] => mret tt
  | x :: l' => body x;; for_each l' body
  end.

(** The state after [data = load_data()]. *)
Definition loaded (table : DataFrame) : state :=
  mkState {[ 0%nat := Frame table ]} {[ "data" := 0%nat ]} 1 [].

(** The value of variable [x] in a state. *)
Definition value_of (x : string) (st : state) : option obj :=
  l ← names st !! x; heap st !! l.

(** ** The user's choices

    The sidebar widgets are the UI layer; a run starts from the values
    they return. *)
Record Selection : Type := mkSelection {
  sel_countries : list string;    (* [countries], line 37 *)
  sel_years : Z * Z;              (* [years], line 38 *)
  sel_metrics : list string;      (* [metrics], line 42 *)
  map_years : Z * Z;              (* [years], line 100; heatmap.py line 19 *)
  map_metric : string             (* [metric], line 104; heatmap.py line 23 *)
}.

(** ** [app.py] *)

Definition display_metric (title : string) (value : cell) (df : DataFrame)
    (column : string) : M unit :=
  '(delta, delta_percent) ← lift (calculate_delta df column);
  st_write (Metric title value delta delta_percent).

(** Lines 59-60: the body of the loop over the chosen metrics. *)
Definition metric_card (metric : string) : M unit :=
  filtered_data ← frame_of "filtered_data";
  value ← lift (column_mean filtered_data metric);
  filtered_data ← frame_of "filtered_data";
  display_metric metric value filtered_data metric.

(** Lines 48-95: the country comparison. *)
Definition comparison_section (sel : Selection) : M unit :=
  data ← frame_of "data";
  assign "filtered_data"
    (Frame (Filter data (sel_countries sel) (sel_years sel).1 (sel_years sel).2));;
  st_write (Title "Education Data Dashboard");;
  st_write (Subheader "Comparative Analysis of Selected Countries");;
  st_columns (length (sel_metrics sel));;
  for_each (sel_metrics sel) metric_card;;
  st_write (Subheader "Visualizations");;
  st_write (Markdown "### Country Comparision");;
  filtered_data ← frame_of "filtered_data";
  st_write (BarChart "gov_exp_pct_gdp" filtered_data);;
  st_write (Markdown "### Enrollment Trends Over Time");;
  filtered_data ← frame_of "filtered_data";
  st_write (LineChart "school_enrol_primary_pct" filtered_data);;
  st_write (Markdown "### Teacher-Pupil Ratios");;
  filtered_data ← frame_of "filtered_data";
  st_write (LineChart "pupil_teacher_primary" filtered_data);;
  filtered_data ← frame_of "filtered_data";
  st_write (DataframeView filtered_data).

Section SortValues.

(** [sort_values(by='composite_metric', ascending=False)]: the scripts
    leave the algorithm to pandas, and so does the model. *)
Variable sort_values : list (string * cell) -> list (string * cell).

(** Lines 109-172: heatmap, composite metric and Top 10. *)
Definition map_section (sel : Selection) : M unit :=
  data ← frame_of "data";
  assign "filtered_data"
    (Frame (FilterYears data (map_years sel).1 (map_years sel).2));;
  st_write (Title "Heatmap & Bubble Map");;
  st_write (Subheader "Visualizing Global Education Levels");;
  st_write (Markdown "### Heatmap of Education Metric by Country");;
  filtered_data ← frame_of "filtered_data";
  heatmap_data ← lift (GroupMean filtered_data (map_metric sel));
  assign "heatmap_data" (Grouped heatmap_data);;
  heatmap_data ← grouped_of "heatmap_data";
  st_write (Choropleth (map_metric sel) heatmap_data);;
  filtered_data ← frame_of "filtered_data";
  (if has_indicators filtered_data then
     composite ← lift (row_means filtered_data indicators);
     update "filtered_data" (fun df => setitem df "composite_metric" composite);;
     filtered_data ← frame_of "filtered_data";
     scores ← lift (GroupMean filtered_data "composite_metric");
     assign "country_composite_scores" (Grouped (sort_values scores))
   else
     st_write (ErrorBox
       "Required indicators for composite metric are missing in the dataset."));;
  st_write (Markdown "### Top 10 Countries by Composite Education Metric");;
  country_composite_scores ← grouped_of "country_composite_scores";
  assign "top_10_countries" (Grouped (head 10 country_composite_scores));;
  top_10_countries ← grouped_of "top_10_countries";
  st_write (TopBarChart top_10_countries).

Definition app (sel : Selection) : M unit :=
  comparison_section sel;; map_section sel.

(** One run of [app.py] on the loaded table. *)
Definition run_app (table : DataFrame) (sel : Selection) : state * result unit :=
  app sel (loaded table).

End SortValues.

(** ** [heatmap.py] *)

(** A marker size plotly accepts: a number that is not negative. *)
Definition valid_size (v : cell) : bool :=
  match v with
  | Some q => Qle_bool 0 q
  | None => false
  end.

(** [px.scatter_geo(bubble_data, ..., size=metric, color=metric, ...)]
    (lines 52-62): building the figure validates the marker sizes and
    raises [ValueError] when one of them is missing or negative. *)
Definition px_scatter_geo (metric : string) (bubble_data : list (GeoKey * cell))
    : result element :=
  if forallb (fun bubble => valid_size bubble.2) bubble_data
  then Ok (ScatterGeo metric bubble_data)
  else Raise ValueError.

Definition heatmap_page (sel : Selection) : M unit :=
  data ← frame_of "data";
  assign "filtered_data"
    (Frame (FilterYears data (map_years sel).1 (map_years sel).2));;
  st_write (Title "Heatmap & Bubble Map");;
  st_write (Subheader "Visualizing Global Education Levels");;
  st_write (Markdown "### Heatmap of Education Metric by Country");;
  filtered_data ← frame_of "filtered_data";
  heatmap_data ← lift (GroupMean filtered_data (map_metric sel));
  assign "heatmap_data" (Grouped heatmap_data);;
  heatmap_data ← grouped_of "heatmap_data";
  st_write (Choropleth (map_metric sel) heatmap_data);;
  st_write (Markdown "### Bubble Map Indicating Education Levels");;
  filtered_data ← frame_of "filtered_data";
  bubble_data ← lift (GroupMeanGeo filtered_data (map_metric sel));
  assign "bubble_data" (GroupedGeo bubble_data);;
  bubble_data ← geo_of "bubble_data";
  fig_bubble ← lift (px_scatter_geo (map_metric sel) bubble_data);
  st_write fig_bubble.

Definition run_heatmap (table : DataFrame) (sel : Selection)
    : state * result unit :=
  heatmap_page sel (loaded table).

(** * Specification-side definitions *)

(** The rows a selection keeps, in the words of the specification: the
    country is one of the selected ones and the year lies between the
    bounds, both included. *)
Definition selected (countries : list string) (yearLow yearHigh : Z)
    (r : Row) : Prop :=
  country r ∈ countries /\
  exists y, year r = Some y /\ yearLow <= y <= yearHigh.

#[global] Instance selected_dec countries yearLow yearHigh r :
  Decision (selected countries yearLow yearHigh r).
Proof.
  unfold selected. destruct (year r) as [y|].
  - destruct (decide (country r ∈ countries /\ yearLow <= y <= yearHigh))
      as [[Hc Hy]|Hn].
    + left. eauto.
    + right. intros [Hc (y' & Hy' & Hb)]. injection Hy' as <-. tauto.
  - right. intros [_ (y & Hy & _)]. discriminate.
Defined.

Definition keep (countries : list string) (lo hi : Z) (r : Row) : bool :=
  bool_decide (country r ∈ countries) && between_year lo hi r.

(** The example scenario of the specification. *)
Definition afghanistan (y : Z) (gov_exp : Q) : Row :=
  mkRow "Afghanistan" (Some y) {[ "gov_exp_pct_gdp" := Some gov_exp ]}.

Definition afghanistan_table : DataFrame :=
  mkFrame ["gov_exp_pct_gdp"] [afghanistan 2010 3.2%Q; afghanistan 2011 3.5%Q].

(** The scenario as the claim states it: the summary has the mean 3.35,
    the delta 0.3 (both as doubles) and a delta percent near 9.375. *)
Definition afghanistan_summary_as_claimed : Prop :=
  exists mean delta delta_percent,
    Binary64.MetricSummary (Filter afghanistan_table ["Afghanistan"] 2010 2011)
                           "gov_exp_pct_gdp"
      = Ok (mean, delta, delta_percent)
    /\ Binary64.eqb mean (Binary64.of_Q 3.35%Q) = true
    /\ Binary64.eqb delta (Binary64.of_Q 0.3%Q) = true
    /\ Binary64.within (1 # 1000000000) delta_percent 9.375%Q.

(** The group key of a row as the claim reads it: the values the row has
    in the key columns, missing or not. *)
Definition present_geo_key (r : Row) : string * cell * cell :=
  (country r, Qred <$> get "latitude" r, Qred <$> get "longitude" r).

Definition geo_key_value (k : GeoKey) : string * cell * cell :=
  (k.1.1, Some k.1.2, Some k.2).

(** The claim on the three-column grouping: the keys of the mapping are
    the key values present in the rows. *)
Definition geo_keys_are_present_values (view : DataFrame) (column : string)
    : Prop :=
  exists g, GroupMeanGeo view column = Ok g /\
    forall v, v ∈ map geo_key_value g.*1 <-> v ∈ map present_geo_key (rows view).

(** A view whose only row has no coordinates. *)
Definition atlantis_view : DataFrame :=
  mkFrame ["gov_exp_pct_gdp"; "latitude"; "longitude"]
          [mkRow "Atlantis" (Some 2015) {[ "gov_exp_pct_gdp" := Some 4%Q ]}].

(** ** What a run shows of the map section *)

Definition is_map_output (e : element) : bool :=
  match e with
  | Choropleth _ _ | ScatterGeo _ _ | ErrorBox _ | TopBarChart _ => true
  | _ => false
  end.

(** The heatmap, bubble-map, composite-score and Top-10 outputs of a run:
    the elements drawn for them, the values left in their variables, and
    how the run ended. *)
Record MapOutputs : Type := mkMapOutputs {
  charts : list element;
  heatmap_data : option obj;
  bubble_data : option obj;
  country_composite_scores : option obj;
  top_10_countries : option obj;
  outcome : result unit
}.

Definition map_outputs (run : state * result unit) : MapOutputs :=
  mkMapOutputs (List.filter is_map_output (page run.1))
               (value_of "heatmap_data" run.1)
               (value_of "bubble_data" run.1)
               (value_of "country_composite_scores" run.1)
               (value_of "top_10_countries" run.1)
               run.2.

(** How lines 48-95 end: [st.columns] refuses an empty list of metrics,
    and the first metric that is not a column raises [KeyError]. *)
Definition comparison_outcome (cols metrics : list string) : result unit :=
  if (length metrics =? 0)%nat then Raise StreamlitAPIException
  else match List.find (fun m => negb (bool_decide (m ∈ cols))) metrics with
       | Some m => Raise (KeyError m)
       | None => Ok tt
       end.

(** The view of lines 141: the year-filtered rows with their composite
    metric. *)
Definition with_composite (view : DataFrame) : DataFrame :=
  setitem view "composite_metric"
    (map (fun r => Series.mean (map (fun c => get c r) indicators)) (rows view)).

(** Lines 144-147, before sorting. *)
Definition composite_scores (view : DataFrame) : list (string * cell) :=
  group_mean String.leb by_country "composite_metric"
             (rows (with_composite view)).

Definition missing_message : string :=
  "Required indicators for composite metric are missing in the dataset.".

(** The map outputs of [app.py] as a function of the table, the second
    year range and the map metric. *)
Definition map_result
    (sort_values : list (string * cell) -> list (string * cell))
    (table : DataFrame) (yearLow yearHigh : Z) (metric : string) : MapOutputs :=
  let view := FilterYears table yearLow yearHigh in
  match GroupMean view metric with
  | Raise e => mkMapOutputs [] None None None None (Raise e)
  | Ok hd =>
      if has_indicators view then
        let scores := composite_scores view in
        mkMapOutputs
          [Choropleth metric hd; TopBarChart (TopN sort_values 10 scores)]
          (Some (Grouped hd)) None
          (Some (Grouped (sort_values scores)))
          (Some (Grouped (TopN sort_values 10 scores)))
          (Ok tt)
      else
        mkMapOutputs [Choropleth metric hd; ErrorBox missing_message]
          (Some (Grouped hd)) None None None
          (Raise (NameError "country_composite_scores"))
  end.

Definition app_result
    (sort_values : list (string * cell) -> list (string * cell))
    (table : DataFrame) (metrics : list string)
    (yearLow yearHigh : Z) (metric : string) : MapOutputs :=
  match comparison_outcome (columns table) metrics with
  | Ok _ => map_result sort_values table yearLow yearHigh metric
  | Raise e => mkMapOutputs [] None None None None (Raise e)
  end.

(** ** The loaded table in the store *)

(** [data] names the object at address 0, that object is the table as
    loaded, and no other variable names it. *)
Definition table_intact (table : DataFrame) (st : state) : Prop :=
  names st !! "data" = Some 0%nat /\
  heap st !! 0%nat = Some (Frame table) /\
  (0 < next st)%nat /\
  forall x, x ≠ "data" -> names st !! x ≠ Some 0%nat.

(** A statement keeps an invariant of the state, however it ends. *)
Definition preserves {A} (I : state -> Prop) (m : M A) : Prop :=
  forall st, I st -> I (m st).1.

(** ** A table without the primary completion rate *)

Definition columns_without_completion : list string :=
  [ "gov_exp_pct_gdp"; "school_enrol_primary_pct";
    "school_enrol_secondary_pct"; "school_enrol_tertiary_pct";
    "pupil_teacher_primary"; "pupil_teacher_secondary";
    "latitude"; "longitude" ].

Definition united_states (y : Z) (gov_exp primary : Q) : Row :=
  mkRow "United States" (Some y)
        {[ "gov_exp_pct_gdp" := Some gov_exp;
           "school_enrol_primary_pct" := Some primary;
           "latitude" := Some 37.09%Q;
           "longitude" := Some (-95.71)%Q ]}.

Definition table_without_completion : DataFrame :=
  mkFrame columns_without_completion
          [united_states 2010 5.4%Q 100.3%Q; united_states 2015 4.9%Q 100.3%Q;
           united_states 2020 5.4%Q 100.3%Q].

(** The choices the widgets start with. *)
Definition default_selection : Selection :=
  mkSelection ["United States"] (2010, 2020)
              ["gov_exp_pct_gdp"; "school_enrol_primary_pct"]
              (2015, 2020) "gov_exp_pct_gdp".

(** * Further definitions *)

(** ** The sidebar's options ([app.py], lines 37-41) *)

(** [sorted(data['country'].unique())] *)
Definition country_options (data : DataFrame) : list string :=
  merge_sort (fun a b => Is_true (String.leb a b))
             (remove_dups (map country (rows data))).

(** [(int(data['year'].dt.year.min()), int(data['year'].dt.year.max()))]:
    the bounds of both sliders.  [min] and [max] skip missing years; with
    no year at all they are NaN and [int] raises [ValueError], which is
    [None] here. *)
Definition year_bounds (data : DataFrame) : option (Z * Z) :=
  match omap year (rows data) with
  | [] => None
  | y :: ys => Some (foldr Z.min y ys, foldr Z.max y ys)
  end.

(** ** The page of the comparison section *)


(** The card of one metric: the numbers of [MetricSummary]. *)
Definition card_of (view : DataFrame) (metric : string) (card : element)
    : Prop :=
  exists value delta delta_percent,
    MetricSummary view metric = Ok (value, delta, delta_percent) /\
    card = Metric metric value delta delta_percent.

(** A frame with every indicator column, two rows per country. *)
Definition full_columns : list string :=
  "pri_comp_rate_pct" :: columns_without_completion.

Definition observation (c : string) (y : Z) (gov_exp completion primary : Q)
    : Row :=
  mkRow c (Some y)
        {[ "gov_exp_pct_gdp" := Some gov_exp;
           "pri_comp_rate_pct" := Some completion;
           "school_enrol_primary_pct" := Some primary ]}.

Definition full_table : DataFrame :=
  mkFrame full_columns
          [ observation "United States" 2015 4.9%Q 99%Q 100%Q;
            observation "France" 2015 5.5%Q 98%Q 102%Q;
            observation "United States" 2016 4.8%Q 97%Q 101%Q;
            observation "France" 2016 5.4%Q 96%Q 103%Q ].

(** ** The page of [heatmap.py] *)



(** A view with one row that has coordinates. *)
Definition france_view : DataFrame :=
  mkFrame full_columns
          [ mkRow "France" (Some 2015)
                  {[ "gov_exp_pct_gdp" := Some 5.5%Q;
                     "latitude" := Some 46%Q;
                     "longitude" := Some 2%Q ]} ].

(** Choices that name a metric the table does not have. *)
Definition selection_with_unknown_metric : Selection :=
  mkSelection ["United States"] (2010, 2020)
              ["gov_exp_pct_gdp"; "literacy_rate"; "school_enrol_primary_pct"]
              (2015, 2020) "gov_exp_pct_gdp".

(** * Properties *)

(** ** Filter *)

Lemma between_year_spec lo hi r :
  between_year lo hi r = true <-> exists y, year r = Some y /\ lo <= y <= hi.
Proof.
  unfold between_year. destruct (year r) as [y|].
  - rewrite andb_true_iff, !Z.leb_le. split.
    + intros Hb. exists y. split; [reflexivity | lia].
    + intros (y' & Hy' & Hb). injection Hy' as <-. lia.
  - split; [discriminate | intros (y & Hy & _); discriminate].
Qed.

(** Indexing by a mask computed row by row is filtering by that test. *)
Lemma select_map_rows (p : Row -> bool) (rs : list Row) :
  map fst (List.filter snd (zip rs (map p rs))) = List.filter p rs.
Proof.
  induction rs as [|r rs IH]; simpl; [reflexivity|].
  destruct (p r); simpl; rewrite IH; reflexivity.
Qed.

Lemma mask_and_map (p q : Row -> bool) (rs : list Row) :
  mask_and (map p rs) (map q rs) = map (fun r => p r && q r) rs.
Proof.
  unfold mask_and. induction rs as [|r rs IH]; simpl; [reflexivity|].
  rewrite IH. reflexivity.
Qed.

Lemma Filter_rows data countries lo hi :
  rows (Filter data countries lo hi) = List.filter (keep countries lo hi) (rows data).
Proof.
  unfold Filter, select, isin, between. simpl.
  rewrite mask_and_map. apply select_map_rows.
Qed.

Lemma FilterYears_rows data lo hi :
  rows (FilterYears data lo hi) = List.filter (between_year lo hi) (rows data).
Proof. unfold FilterYears, select, between. simpl. apply select_map_rows. Qed.

Lemma keep_spec countries lo hi r :
  keep countries lo hi r = true <-> selected countries lo hi r.
Proof.
  unfold keep, selected.
  rewrite andb_true_iff, bool_decide_eq_true, between_year_spec. reflexivity.
Qed.

Lemma filter_bool_Prop {A} (p : A -> bool) (P : A -> Prop)
    `{forall x, Decision (P x)} (l : list A) :
  (forall x, p x = true <-> P x) -> List.filter p l = filter P l.
Proof.
  intros Hp. induction l as [|x l IH]; [reflexivity|].
  simpl. rewrite filter_cons. destruct (p x) eqn:Hx.
  - rewrite decide_True by (apply Hp, Hx). rewrite IH. reflexivity.
  - rewrite decide_False; [exact IH|].
    intros HP. apply Hp in HP. congruence.
Qed.

Lemma List_filter_idemp {A} (p : A -> bool) (l : list A) :
  List.filter p (List.filter p l) = List.filter p l.
Proof.
  induction l as [|x l IH]; [reflexivity|].
  simpl. destruct (p x) eqn:Hx; simpl; rewrite ?Hx, IH; reflexivity.
Qed.

Lemma List_filter_none {A} (p : A -> bool) (l : list A) :
  (forall x, p x = false) -> List.filter p l = [].
Proof.
  intros Hp. induction l as [|x l IH]; [reflexivity|].
  simpl. rewrite Hp. exact IH.
Qed.

(** C3. Filter returns exactly the rows of the table, in table order,
    whose country is one of the selected countries (string equality, so
    upper and lower case differ) and whose year lies between [yearLow]
    and [yearHigh], both bounds included; the columns are the table's. *)
Theorem Filter_exact (table : DataFrame) (countries : list string)
    (yearLow yearHigh : Z) :
  rows (Filter table countries yearLow yearHigh)
    = filter (selected countries yearLow yearHigh) (rows table)
  /\ columns (Filter table countries yearLow yearHigh) = columns table
  /\ forall r, r ∈ rows (Filter table countries yearLow yearHigh) <->
       r ∈ rows table /\ country r ∈ countries /\
       exists y, year r = Some y /\ yearLow <= y <= yearHigh.
Proof.
  assert (Hrows : rows (Filter table countries yearLow yearHigh)
                  = filter (selected countries yearLow yearHigh) (rows table)).
  { rewrite Filter_rows. apply filter_bool_Prop. intros r. apply keep_spec. }
  split; [exact Hrows|]. split; [reflexivity|].
  intros r. rewrite Hrows, list_elem_of_filter. unfold selected. tauto.
Qed.

(** C7. Filter is a total function on tables (it has no failing case);
    with no country selected the view is empty, and so it is when
    [yearLow] exceeds [yearHigh]. *)
Theorem Filter_empty (table : DataFrame) (countries : list string)
    (yearLow yearHigh : Z) :
  rows (Filter table [] yearLow yearHigh) = []
  /\ (yearLow > yearHigh -> rows (Filter table countries yearLow yearHigh) = []).
Proof.
  split.
  - rewrite Filter_rows. apply List_filter_none. intros r.
    apply not_true_is_false. rewrite keep_spec.
    intros [Hc _]. exact (not_elem_of_nil _ Hc).
  - intros Hgt. rewrite Filter_rows. apply List_filter_none. intros r.
    apply not_true_is_false. rewrite keep_spec.
    intros [_ (y & _ & Hb)]. lia.
Qed.

Lemma Filter_empty_witness :
  2020 > 2010 /\ rows (Filter afghanistan_table ["Afghanistan"] 2020 2010) = [].
Proof.
  split; [lia|].
  apply (proj2 (Filter_empty afghanistan_table ["Afghanistan"] 2020 2010)). lia.
Defined.

(** C8. Filtering a filtered view again with the same countries and
    years returns the same view. *)
Theorem Filter_idempotent (table : DataFrame) (countries : list string)
    (yearLow yearHigh : Z) :
  Filter (Filter table countries yearLow yearHigh) countries yearLow yearHigh
    = Filter table countries yearLow yearHigh.
Proof.
  assert (Hr : rows (Filter (Filter table countries yearLow yearHigh)
                       countries yearLow yearHigh)
               = rows (Filter table countries yearLow yearHigh)).
  { rewrite (Filter_rows (Filter _ _ _ _)), Filter_rows.
    apply List_filter_idemp. }
  destruct (Filter (Filter table countries yearLow yearHigh)
              countries yearLow yearHigh) as [c1 r1] eqn:E1.
  destruct (Filter table countries yearLow yearHigh) as [c2 r2] eqn:E2.
  simpl in Hr. subst r2.
  assert (Hc : c1 = c2).
  { change c1 with (columns (mkFrame c1 r1)). rewrite <- E1.
    change c2 with (columns (mkFrame c2 r1)). rewrite <- E2. reflexivity. }
  subst c2. reflexivity.
Qed.

(** ** MetricSummary *)

Lemma getitem_Ok (view : DataFrame) (column : string) :
  column ∈ columns view ->
  getitem view column = Ok (map (get column) (rows view)).
Proof. intros Hc. unfold getitem. rewrite bool_decide_eq_true_2; done. Qed.

Lemma iloc_neg_last2 (s : list cell) (prev last : cell) :
  Series.iloc_neg (s ++ [prev; last]) 1 = Ok last /\
  Series.iloc_neg (s ++ [prev; last]) 2 = Ok prev.
Proof.
  unfold Series.iloc_neg. rewrite rev_app_distr. simpl. split; reflexivity.
Qed.

Lemma Binary64_getitem_Ok (view : DataFrame) (column : string) :
  column ∈ columns view ->
  Binary64.getitem view column
  = Ok (map (fun r => Binary64.of_cell (get column r)) (rows view)).
Proof.
  intros Hc. unfold Binary64.getitem. rewrite getitem_Ok by exact Hc.
  simpl. rewrite <- list_fmap_compose. reflexivity.
Qed.

Lemma Binary64_iloc_neg_last2 (s : list Binary64.float64)
    (prev last : Binary64.float64) :
  Binary64.iloc_neg (s ++ [prev; last]) 1 = Ok last /\
  Binary64.iloc_neg (s ++ [prev; last]) 2 = Ok prev.
Proof.
  unfold Binary64.iloc_neg. rewrite rev_app_distr. simpl. split; reflexivity.
Qed.

(** Subtracting zero is exact. *)
Lemma Binary64_sub_zero (x : Binary64.float64) :
  Binary64.sub x Binary64.zero = x.
Proof. destruct x as [[]|[]| |[] m e]; reflexivity. Qed.

(** C4. With fewer than two rows, delta and delta percent are both 0,
    whatever the column.  With at least two rows and a second-to-last
    value of exactly 0 in the column, delta percent is 0 whatever the last
    value, and delta is the last value minus the second-to-last one: the
    number [last - 0] when the last value is a number, NaN when it is
    missing.  So it is in binary64, where subtracting the zero is exact:
    delta is the last double itself. *)
Theorem calculate_delta_degenerate (view : DataFrame) (column : string) :
  ((len view < 2)%nat ->
     calculate_delta view column = Ok (Some 0%Q, Some 0%Q) /\
     Binary64.calculate_delta view column = Ok (Binary64.zero, Binary64.zero))
  /\ (forall (earlier : list Row) (prevRow lastRow : Row) (zero : Q),
        column ∈ columns view ->
        rows view = earlier ++ [prevRow; lastRow] ->
        get column prevRow = Some zero -> (zero == 0)%Q ->
        (forall last, get column lastRow = Some last ->
           calculate_delta view column
           = Ok (Some (last - zero)%Q, Some 0%Q))
        /\ (get column lastRow = None ->
            calculate_delta view column = Ok (None, Some 0%Q)))
  /\ (forall (earlier : list Row) (prevRow lastRow : Row),
        column ∈ columns view ->
        rows view = earlier ++ [prevRow; lastRow] ->
        Binary64.of_cell (get column prevRow) = Binary64.zero ->
        Binary64.calculate_delta view column
        = Ok (Binary64.of_cell (get column lastRow), Binary64.zero)).
Proof.
  split; [|split].
  - intros Hlen. unfold calculate_delta, Binary64.calculate_delta.
    apply Nat.ltb_lt in Hlen. rewrite Hlen. split; reflexivity.
  - intros earlier prevRow lastRow zero Hc Hrows Hprev Hzero.
    assert (Hrun : calculate_delta view column
                   = Ok (Series.sub (get column lastRow) (Some zero),
                         Some 0%Q)).
    { unfold calculate_delta.
      assert (Hlen : (len view <? 2)%nat = false).
      { apply Nat.ltb_ge. unfold len. rewrite Hrows, length_app. simpl. lia. }
      rewrite Hlen, getitem_Ok by exact Hc. simpl.
      rewrite Hrows, map_app. simpl.
      destruct (iloc_neg_last2 (map (get column) earlier)
                  (get column prevRow) (get column lastRow)) as [-> ->].
      simpl. rewrite Hprev. simpl.
      apply Qeq_bool_iff in Hzero. rewrite Hzero. reflexivity. }
    split.
    + intros last Hlast. rewrite Hrun, Hlast. reflexivity.
    + intros Hlast. rewrite Hrun, Hlast. reflexivity.
  - intros earlier prevRow lastRow Hc Hrows Hprev.
    unfold Binary64.calculate_delta.
    assert (Hlen : (len view <? 2)%nat = false).
    { apply Nat.ltb_ge. unfold len. rewrite Hrows, length_app. simpl. lia. }
    rewrite Hlen, Binary64_getitem_Ok by exact Hc. cbn [rbind].
    rewrite Hrows, map_app. cbn [map].
    destruct (Binary64_iloc_neg_last2
                (map (fun r => Binary64.of_cell (get column r)) earlier)
                (Binary64.of_cell (get column prevRow))
                (Binary64.of_cell (get column lastRow))) as [-> ->].
    cbn [rbind]. rewrite Hprev, Binary64_sub_zero. reflexivity.
Qed.

Lemma calculate_delta_degenerate_witness :
  calculate_delta (mkFrame ["gov_exp_pct_gdp"] [afghanistan 2010 0%Q])
                  "gov_exp_pct_gdp" = Ok (Some 0%Q, Some 0%Q)
  /\ calculate_delta
       (mkFrame ["gov_exp_pct_gdp"] [afghanistan 2010 0%Q; afghanistan 2011 3.5%Q])
       "gov_exp_pct_gdp"
     = Ok (Some (3.5 - 0)%Q, Some 0%Q)
  /\ Binary64.calculate_delta
       (mkFrame ["gov_exp_pct_gdp"] [afghanistan 2010 0%Q; afghanistan 2011 3.5%Q])
       "gov_exp_pct_gdp"
     = Ok (Binary64.of_Q 3.5%Q, Binary64.zero).
Proof.
  split; [|split].
  - apply (proj1 (calculate_delta_degenerate _ _)). unfold len. simpl. lia.
  - apply (proj1 (proj2 (calculate_delta_degenerate
                           (mkFrame ["gov_exp_pct_gdp"]
                              [afghanistan 2010 0%Q; afghanistan 2011 3.5%Q])
                           "gov_exp_pct_gdp"))
             [] (afghanistan 2010 0%Q) (afghanistan 2011 3.5%Q) 0%Q).
    + simpl. left.
    + reflexivity.
    + reflexivity.
    + reflexivity.
    + reflexivity.
  - apply (proj2 (proj2 (calculate_delta_degenerate
                           (mkFrame ["gov_exp_pct_gdp"]
                              [afghanistan 2010 0%Q; afghanistan 2011 3.5%Q])
                           "gov_exp_pct_gdp"))
             [] (afghanistan 2010 0%Q) (afghanistan 2011 3.5%Q)).
    + simpl. left.
    + reflexivity.
    + reflexivity.
Defined.

Lemma calculate_delta_Ok (view : DataFrame) (column : string) :
  column ∈ columns view ->
  exists delta delta_percent,
    calculate_delta view column = Ok (delta, delta_percent).
Proof.
  intros Hc. unfold calculate_delta.
  destruct (len view <? 2)%nat eqn:Hlen; [eauto|].
  apply Nat.ltb_ge in Hlen. unfold len in Hlen.
  rewrite getitem_Ok by exact Hc. simpl.
  destruct (rows view) as [|r rs] using rev_ind; [simpl in Hlen; lia|].
  destruct rs as [|r' rs _] using rev_ind; [simpl in Hlen; lia|].
  rewrite <- app_assoc. simpl. rewrite map_app. simpl.
  destruct (iloc_neg_last2 (map (get column) rs)
              (get column r') (get column r)) as [-> ->].
  simpl. eauto.
Qed.

(** C5, as stated, fails: computed in binary64, the delta of the scenario
    is 0.2999999999999998 (5404319552844592 * 2^-54), which is not the
    double 0.3 (5404319552844595 * 2^-54). *)
Lemma afghanistan_delta_is_not_0_3 : ~ afghanistan_summary_as_claimed.
Proof.
  intros (mean & delta & delta_percent & Hrun & _ & Hdelta & _).
  vm_compute in Hrun. injection Hrun as <- <- <-.
  vm_compute in Hdelta. discriminate.
Qed.

(** C5, amended. On the table of the two Afghanistan rows (2010: 3.2,
    2011: 3.5), filtering on Afghanistan and 2010-2011 yields both rows in
    year order, and the summary of gov_exp_pct_gdp on that view, computed
    in binary64, is: mean the double 3.35; delta 0.2999999999999998,
    within 10^-15 of 0.3; delta percent 9.374999999999995, within 10^-14
    of 9.375. *)
Theorem afghanistan_scenario_binary64 :
  let view := Filter afghanistan_table ["Afghanistan"] 2010 2011 in
  rows view = [afghanistan 2010 3.2%Q; afghanistan 2011 3.5%Q]
  /\ exists mean delta delta_percent,
       Binary64.MetricSummary view "gov_exp_pct_gdp"
         = Ok (mean, delta, delta_percent)
       /\ mean = Binary64.of_Q 3.35%Q
       /\ delta = S754_finite false 5404319552844592 (-54)
       /\ delta_percent = S754_finite false 5277655813324797 (-49)
       /\ Binary64.within (1 # 1000000000000000) delta 0.3%Q
       /\ Binary64.within (1 # 100000000000000) delta_percent 9.375%Q.
Proof.
  split; [reflexivity|].
  eexists _, _, _. split; [vm_compute; reflexivity|].
  split; [vm_compute; reflexivity|].
  split; [reflexivity|]. split; [reflexivity|].
  split; vm_compute; discriminate.
Qed.

(** ** GroupMean *)

Section GroupByFacts.
Context {K : Type} `{EqDecision K}.
Variable le : K -> K -> bool.
Variable key : Row -> option K.

Lemma elem_of_group_keys (rs : list Row) (k : K) :
  k ∈ group_keys le key rs <-> exists r, r ∈ rs /\ key r = Some k.
Proof.
  unfold group_keys.
  rewrite merge_sort_Permutation, elem_of_remove_dups, list_elem_of_omap.
  reflexivity.
Qed.

Lemma NoDup_group_keys (rs : list Row) : NoDup (group_keys le key rs).
Proof.
  unfold group_keys. rewrite merge_sort_Permutation. apply NoDup_remove_dups.
Qed.

Lemma group_mean_keys (column : string) (rs : list Row) :
  (group_mean le key column rs).*1 = group_keys le key rs.
Proof.
  unfold group_mean. rewrite <- list_fmap_compose.
  induction (group_keys le key rs) as [|k ks IH]; [reflexivity|].
  simpl. f_equal. exact IH.
Qed.
End GroupByFacts.

(** C9, as stated, fails on the bubble-map grouping: the row of Atlantis
    has a group-key value, but with missing coordinates it is in no
    group, and the mapping is empty. *)
Lemma GroupMeanGeo_drops_missing_coordinates :
  GroupMeanGeo atlantis_view "gov_exp_pct_gdp" = Ok []
  /\ ~ geo_keys_are_present_values atlantis_view "gov_exp_pct_gdp".
Proof.
  split; [reflexivity|].
  intros (g & Hg & Hkeys).
  change (GroupMeanGeo atlantis_view "gov_exp_pct_gdp") with
    (@Ok (list (GeoKey * cell)) []) in Hg.
  injection Hg as <-.
  specialize (Hkeys ("Atlantis", None, None)).
  destruct Hkeys as [_ Hin].
  assert (Hpresent : ("Atlantis", None, None)
                       ∈ map present_geo_key (rows atlantis_view)).
  { vm_compute. left. }
  apply Hin in Hpresent. simpl in Hpresent.
  exact (not_elem_of_nil _ Hpresent).
Qed.

(** C9, amended. For a view and a column of it, the keys of GroupMean's
    mapping are distinct and are exactly the group-key values of the rows
    in which no key column is missing: grouping by country, the countries
    of the rows; grouping by country, latitude and longitude, the triples
    of the rows that have both coordinates. *)
Theorem GroupMean_keys (view : DataFrame) (column : string) :
  column ∈ columns view ->
  (exists g, GroupMean view column = Ok g /\ NoDup g.*1 /\
     forall c, c ∈ g.*1 <-> exists r, r ∈ rows view /\ country r = c)
  /\ ("latitude" ∈ columns view -> "longitude" ∈ columns view ->
      exists g, GroupMeanGeo view column = Ok g /\ NoDup g.*1 /\
        forall c la lo, (c, la, lo) ∈ g.*1 <->
          exists r la' lo', r ∈ rows view /\ country r = c /\
            get "latitude" r = Some la' /\ get "longitude" r = Some lo' /\
            la = Qred la' /\ lo = Qred lo').
Proof.
  intros Hc. split.
  - exists (group_mean String.leb by_country column (rows view)).
    split; [unfold GroupMean; rewrite bool_decide_eq_true_2; done|].
    rewrite group_mean_keys. split; [apply NoDup_group_keys|].
    intros c. rewrite elem_of_group_keys. unfold by_country.
    split; intros (r & Hr & Hk); exists r; split; congruence.
  - intros Hla Hlo.
    exists (group_mean geo_le by_country_lat_lon column (rows view)).
    split.
    { unfold GroupMeanGeo. rewrite !bool_decide_eq_true_2; done. }
    rewrite group_mean_keys. split; [apply NoDup_group_keys|].
    intros c la lo. rewrite elem_of_group_keys. unfold by_country_lat_lon.
    split.
    + intros (r & Hr & Hk). exists r.
      destruct (get "latitude" r) as [la'|]; [|discriminate].
      destruct (get "longitude" r) as [lo'|]; [|discriminate].
      exists la', lo'. injection Hk as <- <- <-. repeat split; done.
    + intros (r & la' & lo' & Hr & <- & Hla' & Hlo' & -> & ->).
      exists r. rewrite Hla', Hlo'. auto.
Qed.

Lemma GroupMean_keys_witness :
  "gov_exp_pct_gdp" ∈ columns atlantis_view /\
  exists g, GroupMean atlantis_view "gov_exp_pct_gdp" = Ok g /\ NoDup g.*1 /\
    forall c, c ∈ g.*1 <-> exists r, r ∈ rows atlantis_view /\ country r = c.
Proof.
  assert (Hc : "gov_exp_pct_gdp" ∈ columns atlantis_view) by (simpl; left).
  split; [exact Hc|].
  exact (proj1 (GroupMean_keys atlantis_view "gov_exp_pct_gdp" Hc)).
Defined.

(** ** TopN *)

#[global] Instance score_ge_total : Total score_ge.
Proof.
  intros [x|] [y|]; simpl; auto.
  destruct (Qlt_le_dec x y) as [Hlt|Hle]; [right | left]; auto.
  apply Qlt_le_weak, Hlt.
Qed.

#[global] Instance score_ge_trans : Transitive score_ge.
Proof.
  intros [x|] [y|] [z|]; simpl; auto; try tauto.
  intros Hyx Hzy. eapply Qle_trans; eauto.
Qed.

#[global] Instance scored_ge_total : Total scored_ge.
Proof. intros a b. apply score_ge_total. Qed.

#[global] Instance scored_ge_trans : Transitive scored_ge.
Proof. intros a b c. apply score_ge_trans. Qed.

(** A merge sort by [scored_ge] meets the contract. *)
Lemma merge_sort_contract : sort_contract (merge_sort scored_ge).
Proof.
  intros g. split.
  - apply merge_sort_Permutation.
  - apply StronglySorted_merge_sort; apply _.
Qed.

(** ** Running the scripts, statement by statement *)

Lemma run_bind {A B} (m : M A) (k : A -> M B) (st : state) :
  (m ≫= k) st = match m st with
                | (st', Ok a) => k a st'
                | (st', Raise e) => (st', Raise e)
                end.
Proof. reflexivity. Qed.

Lemma frame_of_run (x : string) (st : state) (l : nat) (df : DataFrame) :
  names st !! x = Some l -> heap st !! l = Some (Frame df) ->
  frame_of x st = (st, Ok df).
Proof.
  intros Hn Hh. unfold frame_of. rewrite run_bind. unfold deref.
  rewrite Hn, Hh. reflexivity.
Qed.

Lemma grouped_of_run (x : string) (st : state) (l : nat)
    (g : list (string * cell)) :
  names st !! x = Some l -> heap st !! l = Some (Grouped g) ->
  grouped_of x st = (st, Ok g).
Proof.
  intros Hn Hh. unfold grouped_of. rewrite run_bind. unfold deref.
  rewrite Hn, Hh. reflexivity.
Qed.

Lemma grouped_of_unbound (x : string) (st : state) :
  names st !! x = None -> grouped_of x st = (st, Raise (NameError x)).
Proof.
  intros Hn. unfold grouped_of. rewrite run_bind. unfold deref.
  rewrite Hn. reflexivity.
Qed.

Lemma assign_run (x : string) (o : obj) (st : state) :
  assign x o st
  = (mkState (<[next st := o]> (heap st)) (<[x := next st]> (names st))
             (S (next st)) (page st), Ok tt).
Proof. reflexivity. Qed.

Lemma st_write_run (e : element) (st : state) :
  st_write e st
  = (mkState (heap st) (names st) (next st) (page st ++ [e]), Ok tt).
Proof. reflexivity. Qed.

Lemma lift_run {A} (r : result A) (st : state) : lift r st = (st, r).
Proof. reflexivity. Qed.

Lemma update_run (x : string) (f : DataFrame -> DataFrame) (st : state)
    (l : nat) (df : DataFrame) :
  names st !! x = Some l -> heap st !! l = Some (Frame df) ->
  update x f st
  = (mkState (<[l := Frame (f df)]> (heap st)) (names st) (next st) (page st),
     Ok tt).
Proof. intros Hn Hh. unfold update. rewrite Hn, Hh. reflexivity. Qed.

(** One statement of a script, run on a state whose namespace is known. *)
Ltac step :=
  rewrite run_bind;
  first
    [ rewrite assign_run
    | rewrite st_write_run
    | rewrite lift_run
    | erewrite frame_of_run by reflexivity
    | erewrite grouped_of_run by reflexivity
    | erewrite grouped_of_unbound by reflexivity
    | erewrite update_run by reflexivity ];
  cbn [heap names next page].

Lemma has_indicators_spec (view : DataFrame) :
  has_indicators view = true <->
  forall indicator, indicator ∈ indicators -> indicator ∈ columns view.
Proof.
  unfold has_indicators. rewrite forallb_forall. split.
  - intros Hall i Hi. apply list_elem_of_In in Hi.
    apply Hall in Hi. apply bool_decide_eq_true in Hi. exact Hi.
  - intros Hall i Hi. apply bool_decide_eq_true, Hall, list_elem_of_In, Hi.
Qed.

Lemma row_means_indicators (view : DataFrame) :
  has_indicators view = true ->
  row_means view indicators
  = Ok (map (fun r => Series.mean (map (fun c => get c r) indicators))
            (rows view)).
Proof.
  intros Hall. unfold row_means.
  destruct (List.find _ indicators) as [c|] eqn:Hfind; [|reflexivity].
  apply find_some in Hfind as [Hin Hc].
  rewrite has_indicators_spec in Hall.
  apply list_elem_of_In, Hall in Hin.
  rewrite bool_decide_eq_true_2 in Hc by exact Hin. discriminate.
Qed.

Lemma GroupMean_with_composite (view : DataFrame) :
  GroupMean (with_composite view) "composite_metric"
  = Ok (composite_scores view).
Proof.
  unfold GroupMean. rewrite bool_decide_eq_true_2; [reflexivity|].
  unfold with_composite, setitem. simpl.
  case_bool_decide as Hin; [exact Hin|].
  apply elem_of_app. right. left.
Qed.

Lemma filter_is_map_output_app (pg : list element) (e : element) :
  List.filter is_map_output (pg ++ [e])
  = List.filter is_map_output pg ++ (if is_map_output e then [e] else []).
Proof.
  rewrite List.filter_app. simpl. destruct (is_map_output e); reflexivity.
Qed.

Section SortValuesFacts.
Variable sort_values : list (string * cell) -> list (string * cell).

(** The map section, run after the comparison section, shows
    [map_result]. *)
Lemma map_section_run (table : DataFrame) (sel : Selection) (o : obj)
    (pg : list element) :
  List.filter is_map_output pg = [] ->
  map_outputs
    (map_section sort_values sel
       (mkState (<[1%nat := o]> {[ 0%nat := Frame table ]})
                (<["filtered_data" := 1%nat]> {[ "data" := 0%nat ]}) 2 pg))
  = map_result sort_values table (map_years sel).1 (map_years sel).2
               (map_metric sel).
Proof.
  intros Hpg. unfold map_section, map_result.
  do 7 step.
  destruct (GroupMean _ (map_metric sel)) as [hd|e] eqn:Hhd.
  - do 4 step. rewrite run_bind.
    destruct (has_indicators _) eqn:Hind.
    + rewrite run_bind, lift_run, row_means_indicators by exact Hind.
      step. step. rewrite run_bind, lift_run.
      fold (with_composite (FilterYears table (map_years sel).1 (map_years sel).2)).
      rewrite GroupMean_with_composite.
      rewrite assign_run. cbn [heap names next page].
      do 4 step. rewrite st_write_run. cbn [heap names next page].
      unfold map_outputs. cbn [fst snd page].
      rewrite !filter_is_map_output_app, Hpg. reflexivity.
    + rewrite st_write_run. cbn [heap names next page].
      do 2 step.
      unfold map_outputs. cbn [fst snd page].
      rewrite !filter_is_map_output_app, Hpg. reflexivity.
  - unfold map_outputs. cbn [fst snd page].
    rewrite !filter_is_map_output_app, Hpg. reflexivity.
Qed.

End SortValuesFacts.

Lemma state_eta (st : state) :
  mkState (heap st) (names st) (next st) (page st) = st.
Proof. destruct st; reflexivity. Qed.

(** One metric card: drawn when the metric is a column of the view,
    [KeyError] otherwise. *)
Lemma metric_card_present (fd : DataFrame) (l : nat) (m : string) (st : state) :
  names st !! "filtered_data" = Some l -> heap st !! l = Some (Frame fd) ->
  m ∈ columns fd ->
  exists card,
    metric_card m st
    = (mkState (heap st) (names st) (next st) (page st ++ [card]), Ok tt)
    /\ is_map_output card = false.
Proof.
  intros Hn Hh Hm. unfold metric_card.
  rewrite run_bind, (frame_of_run _ _ _ _ Hn Hh), run_bind, lift_run.
  unfold column_mean. rewrite getitem_Ok by exact Hm. cbn [rbind].
  rewrite run_bind, (frame_of_run _ _ _ _ Hn Hh).
  unfold display_metric. rewrite run_bind, lift_run.
  destruct (calculate_delta_Ok fd m Hm) as (d & dp & ->).
  rewrite st_write_run. eexists. split; reflexivity.
Qed.

Lemma metric_card_absent (fd : DataFrame) (l : nat) (m : string) (st : state) :
  names st !! "filtered_data" = Some l -> heap st !! l = Some (Frame fd) ->
  m ∉ columns fd ->
  metric_card m st = (st, Raise (KeyError m)).
Proof.
  intros Hn Hh Hm. unfold metric_card.
  rewrite run_bind, (frame_of_run _ _ _ _ Hn Hh), run_bind, lift_run.
  unfold column_mean, getitem.
  rewrite bool_decide_eq_false_2 by exact Hm. reflexivity.
Qed.

(** The loop over the metrics only adds metric cards to the page; it
    stops at the first metric that is not a column. *)
Lemma metrics_loop_run (fd : DataFrame) (l : nat) (ms : list string) :
  forall st : state,
  names st !! "filtered_data" = Some l -> heap st !! l = Some (Frame fd) ->
  exists pg,
    for_each ms metric_card st
    = (mkState (heap st) (names st) (next st) (page st ++ pg),
       match List.find (fun m => negb (bool_decide (m ∈ columns fd))) ms with
       | Some m => Raise (KeyError m)
       | None => Ok tt
       end)
    /\ List.filter is_map_output pg = [].
Proof.
  induction ms as [|m ms IH]; intros st Hn Hh.
  - exists []. rewrite app_nil_r, state_eta. split; reflexivity.
  - cbn [for_each List.find]. rewrite run_bind.
    case_bool_decide as Hm; cbn [negb].
    + destruct (metric_card_present fd l m st Hn Hh Hm) as (card & -> & Hcard).
      destruct (IH (mkState (heap st) (names st) (next st) (page st ++ [card]))
                  Hn Hh) as (pg & -> & Hpg).
      cbn [heap names next page].
      exists (card :: pg).
      rewrite <- app_assoc. split; [reflexivity|].
      cbn [List.filter]. rewrite Hcard. exact Hpg.
    + rewrite (metric_card_absent fd l m st Hn Hh Hm).
      exists []. rewrite app_nil_r, state_eta. split; reflexivity.
Qed.

(** Lines 48-95 leave the table at address 0, the filtered view at
    address 1 under the name [filtered_data], and nothing of the map
    section on the page. *)
Lemma comparison_section_run (table : DataFrame) (sel : Selection) :
  exists pg,
    comparison_section sel (loaded table)
    = (mkState (<[1%nat := Frame (Filter table (sel_countries sel)
                                     (sel_years sel).1 (sel_years sel).2)]>
                  {[ 0%nat := Frame table ]})
               (<["filtered_data" := 1%nat]> {[ "data" := 0%nat ]}) 2 pg,
       comparison_outcome (columns table) (sel_metrics sel))
    /\ List.filter is_map_output pg = [].
Proof.
  unfold comparison_section, loaded, comparison_outcome.
  do 4 step. rewrite run_bind. unfold st_columns.
  destruct (length (sel_metrics sel) =? 0)%nat.
  { eexists. split; reflexivity. }
  unfold mret, M_ret. rewrite run_bind.
  edestruct (metrics_loop_run
               (Filter table (sel_countries sel) (sel_years sel).1 (sel_years sel).2)
               1 (sel_metrics sel)) as (pg & -> & Hpg);
    [reflexivity | reflexivity |].
  cbn [heap names next page columns Filter select].
  destruct (List.find _ (sel_metrics sel)) as [m|].
  { eexists. split; [reflexivity|].
    rewrite !List.filter_app, Hpg. reflexivity. }
  repeat step. rewrite st_write_run. cbn [heap names next page].
  eexists. split; [reflexivity|].
  rewrite !List.filter_app, Hpg. reflexivity.
Qed.

Section AppFacts.
Variable sort_values : list (string * cell) -> list (string * cell).

(** What a run of [app.py] shows of the map section. *)
Lemma app_outputs (table : DataFrame) (sel : Selection) :
  map_outputs (run_app sort_values table sel)
  = app_result sort_values table (sel_metrics sel)
               (map_years sel).1 (map_years sel).2 (map_metric sel).
Proof.
  unfold run_app, app, app_result. rewrite run_bind.
  destruct (comparison_section_run table sel) as (pg & -> & Hpg).
  destruct (comparison_outcome _ _) as [[]|e].
  - apply map_section_run, Hpg.
  - unfold map_outputs. cbn [fst snd page]. rewrite Hpg. reflexivity.
Qed.

(** X16. For every table and every choice of the widgets: when the
    comparison section and the heatmap go through and an indicator column
    is absent, the message about the missing indicators is shown, the
    Top-10 step raises [NameError] and [top_10_countries] stays
    unbound. *)
Lemma app_missing_indicator (table : DataFrame) (sel : Selection) :
  comparison_outcome (columns table) (sel_metrics sel) = Ok tt ->
  map_metric sel ∈ columns table ->
  has_indicators table = false ->
  let out := map_outputs (run_app sort_values table sel) in
  outcome out = Raise (NameError "country_composite_scores")
  /\ ErrorBox missing_message ∈ charts out
  /\ top_10_countries out = None.
Proof.
  intros Hcmp Hm Hind. rewrite app_outputs. unfold app_result, map_result.
  rewrite Hcmp. unfold GroupMean.
  rewrite bool_decide_eq_true_2 by exact Hm.
  change (has_indicators (FilterYears _ _ _)) with (has_indicators table).
  rewrite Hind. cbn. repeat split. right. left.
Qed.


End AppFacts.

(** ** The table in the store *)

Section Preserves.
Variable I : state -> Prop.

Lemma preserves_bind {A B} (m : M A) (k : A -> M B) :
  preserves I m -> (forall a, preserves I (k a)) -> preserves I (m ≫= k).
Proof.
  intros Hm Hk st HI. rewrite run_bind. specialize (Hm st HI).
  destruct (m st) as [st' [a|e]]; simpl in *; [apply Hk|]; assumption.
Qed.

Lemma preserves_ret {A} (a : A) : preserves I (mret a).
Proof. intros st HI. exact HI. Qed.

Lemma preserves_raise {A} (e : exn) : preserves I (@raise A e).
Proof. intros st HI. exact HI. Qed.

Lemma preserves_lift {A} (r : result A) : preserves I (lift r).
Proof. intros st HI. exact HI. Qed.

Lemma preserves_deref (x : string) : preserves I (deref x).
Proof.
  intros st HI. unfold deref.
  destruct (names st !! x) as [l|]; [|exact HI].
  destruct (heap st !! l); exact HI.
Qed.

Lemma preserves_frame_of (x : string) : preserves I (frame_of x).
Proof.
  apply preserves_bind; [apply preserves_deref|].
  intros []; first [apply preserves_ret | apply preserves_raise].
Qed.

Lemma preserves_grouped_of (x : string) : preserves I (grouped_of x).
Proof.
  apply preserves_bind; [apply preserves_deref|].
  intros []; first [apply preserves_ret | apply preserves_raise].
Qed.

Lemma preserves_geo_of (x : string) : preserves I (geo_of x).
Proof.
  apply preserves_bind; [apply preserves_deref|].
  intros []; first [apply preserves_ret | apply preserves_raise].
Qed.

Lemma preserves_st_columns (n : nat) : preserves I (st_columns n).
Proof.
  unfold st_columns. destruct (n =? 0)%nat;
    [apply preserves_raise | apply preserves_ret].
Qed.

Lemma preserves_for_each {A} (l : list A) (body : A -> M unit) :
  (forall a, preserves I (body a)) -> preserves I (for_each l body).
Proof.
  intros Hbody. induction l as [|a l IH]; simpl.
  - apply preserves_ret.
  - apply preserves_bind; [apply Hbody | intros _; exact IH].
Qed.

End Preserves.

Section TableIntact.
Variable table : DataFrame.

Lemma intact_loaded : table_intact table (loaded table).
Proof.
  unfold table_intact, loaded. cbn [names heap next].
  repeat split; [lia|].
  intros x Hx. rewrite lookup_singleton_ne by congruence. discriminate.
Qed.

Lemma intact_st_write (e : element) :
  preserves (table_intact table) (st_write e).
Proof. intros st HI. exact HI. Qed.

(** Binding a variable other than [data] to a new object leaves the
    table alone. *)
Lemma intact_assign (x : string) (o : obj) :
  x ≠ "data" -> preserves (table_intact table) (assign x o).
Proof.
  intros Hx st (Hdata & Hobj & Hnext & Hnames).
  rewrite assign_run. unfold table_intact. cbn [fst names heap next].
  rewrite !lookup_insert_ne by (congruence || lia).
  repeat split; [assumption | assumption | lia |].
  intros y Hy. destruct (decide (x = y)) as [->|Hxy].
  - rewrite lookup_insert_eq. intros [= Heq]. lia.
  - rewrite lookup_insert_ne by exact Hxy. apply Hnames, Hy.
Qed.

(** So does changing in place the object another variable names. *)
Lemma intact_update (x : string) (f : DataFrame -> DataFrame) :
  x ≠ "data" -> preserves (table_intact table) (update x f).
Proof.
  intros Hx st HI. pose proof HI as (Hdata & Hobj & Hnext & Hnames).
  unfold update.
  destruct (names st !! x) as [l|] eqn:Hl; [|exact HI].
  destruct (heap st !! l) as [[df| |]|]; try exact HI.
  unfold table_intact. cbn [fst names heap next].
  assert (l ≠ 0%nat) by (intros ->; exact (Hnames x Hx Hl)).
  rewrite lookup_insert_ne by assumption. auto.
Qed.

End TableIntact.

Ltac intact :=
  repeat first
    [ apply preserves_frame_of
    | apply preserves_grouped_of
    | apply preserves_geo_of
    | apply preserves_lift
    | apply preserves_ret
    | apply preserves_raise
    | apply preserves_st_columns
    | apply intact_st_write
    | apply intact_assign; discriminate
    | apply intact_update; discriminate
    | apply preserves_for_each; intros ?
    | apply preserves_bind; [|intros ?]
    | match goal with
      | |- preserves _ (if ?b then _ else _) => destruct b
      | |- preserves _ (match ?a with _ => _ end) => destruct a
      end ].

Section ScriptsKeepTable.
Variable sort_values : list (string * cell) -> list (string * cell).
Variable table : DataFrame.

Lemma intact_comparison_section (sel : Selection) :
  preserves (table_intact table) (comparison_section sel).
Proof. unfold comparison_section, metric_card, display_metric. intact. Qed.

Lemma intact_map_section (sel : Selection) :
  preserves (table_intact table) (map_section sort_values sel).
Proof. unfold map_section. intact. Qed.

Lemma intact_app (sel : Selection) :
  preserves (table_intact table) (app sort_values sel).
Proof.
  unfold app. apply preserves_bind;
    [apply intact_comparison_section | intros _; apply intact_map_section].
Qed.

Lemma intact_heatmap_page (sel : Selection) :
  preserves (table_intact table) (heatmap_page sel).
Proof. unfold heatmap_page. intact. Qed.

Lemma intact_value_of (st : state) :
  table_intact table st -> value_of "data" st = Some (Frame table).
Proof. intros (Hdata & Hobj & _). unfold value_of. rewrite Hdata. exact Hobj. Qed.

End ScriptsKeepTable.

(** C1. On a table without the column pri_comp_rate_pct, with the
    widgets' initial choices, [app.py] shows the message about the missing
    indicators and then stops with [NameError] at the Top-10 step: the
    last element on the page is the Top-10 heading, no Top-10 chart is
    drawn and [top_10_countries] is never bound. *)
Theorem missing_indicator_breaks_top10
    (sort_values : list (string * cell) -> list (string * cell)) :
  has_indicators table_without_completion = false
  /\ exists st,
       run_app sort_values table_without_completion default_selection
         = (st, Raise (NameError "country_composite_scores"))
       /\ ErrorBox missing_message ∈ page st
       /\ last (page st)
            = Some (Markdown "### Top 10 Countries by Composite Education Metric")
       /\ value_of "top_10_countries" st = None.
Proof.
  split; [reflexivity|].
  eexists. split; [vm_compute; reflexivity|].
  split; [|split; reflexivity].
  apply list_elem_of_In. vm_compute. tauto.
Qed.

(** C6. Two runs of [app.py] on one table that differ only in the
    selected countries (and in the first year range) show the same
    heatmap, composite scores and Top 10, leave the same values in the
    variables of the map section and end the same way; [heatmap.py],
    bubble map included, reads no country selection at all. *)
Theorem map_outputs_ignore_countries
    (sort_values : list (string * cell) -> list (string * cell))
    (table : DataFrame) (countries1 countries2 : list string)
    (years1 years2 : Z * Z) (metrics : list string)
    (years : Z * Z) (metric : string) :
  map_outputs (run_app sort_values table
                 (mkSelection countries1 years1 metrics years metric))
  = map_outputs (run_app sort_values table
                   (mkSelection countries2 years2 metrics years metric))
  /\ run_heatmap table (mkSelection countries1 years1 metrics years metric)
     = run_heatmap table (mkSelection countries2 years2 metrics years metric).
Proof.
  split; [|reflexivity].
  rewrite !app_outputs. reflexivity.
Qed.

(** C10. However a run of [app.py] or of [heatmap.py] ends, the variable
    [data] still names the table as it was loaded: same columns, same
    rows, same order.  The composite_metric column is added to the object
    [filtered_data] names, which is another object. *)
Theorem table_immutable
    (sort_values : list (string * cell) -> list (string * cell))
    (table : DataFrame) (sel : Selection) :
  value_of "data" (run_app sort_values table sel).1 = Some (Frame table)
  /\ value_of "data" (run_heatmap table sel).1 = Some (Frame table).
Proof.
  split; apply intact_value_of.
  - apply intact_app, intact_loaded.
  - apply intact_heatmap_page, intact_loaded.
Qed.

(** * Further properties *)

(** ** [calculate_delta] *)

(** X2. For a label other than [country] and [year] (the two columns
    that are not numeric and not listed in [columns]), [calculate_delta]
    raises exactly when the view has at least two rows and the label is
    not one of its columns, and what it raises is [KeyError] for that
    label: on a view of fewer than two rows an unknown column goes
    unnoticed. *)
Theorem calculate_delta_raises (view : DataFrame) (column : string) (e : exn) :
  column ≠ "country" -> column ≠ "year" ->
  (calculate_delta view column = Raise e <->
   (2 <= len view)%nat /\ (column ∉ columns view) /\ e = KeyError column).
Proof.
  intros _ _. split.
  - intros Hraise. destruct (decide (column ∈ columns view)) as [Hc|Hc].
    + destruct (calculate_delta_Ok view column Hc) as (d & dp & Hok).
      congruence.
    + unfold calculate_delta in Hraise.
      destruct (len view <? 2)%nat eqn:Hlen; [discriminate|].
      apply Nat.ltb_ge in Hlen. unfold getitem in Hraise.
      rewrite bool_decide_eq_false_2 in Hraise by exact Hc.
      simpl in Hraise. injection Hraise as <-. auto.
  - intros (Hlen & Hc & ->). unfold calculate_delta.
    apply Nat.ltb_ge in Hlen. rewrite Hlen. unfold getitem.
    rewrite bool_decide_eq_false_2 by exact Hc. reflexivity.
Qed.

Lemma calculate_delta_raises_witness :
  calculate_delta afghanistan_table "literacy_rate"
  = Raise (KeyError "literacy_rate").
Proof.
  apply (calculate_delta_raises afghanistan_table "literacy_rate").
  - discriminate.
  - discriminate.
  - split; [unfold len; simpl; lia|]. split; [|reflexivity].
    intros Hin. apply list_elem_of_singleton in Hin. discriminate.
Defined.

(** X3. When one of the last two values of the column is missing and the
    second-to-last one is not exactly 0, delta and delta percent are both
    NaN. *)
Theorem calculate_delta_missing (view : DataFrame) (column : string)
    (earlier : list Row) (prevRow lastRow : Row) :
  column ∈ columns view ->
  rows view = earlier ++ [prevRow; lastRow] ->
  get column prevRow = None \/ get column lastRow = None ->
  (forall z, get column prevRow = Some z -> ~ (z == 0)%Q) ->
  calculate_delta view column = Ok (None, None).
Proof.
  intros Hc Hrows Hmiss Hnz. unfold calculate_delta.
  assert (Hlen : (len view <? 2)%nat = false).
  { apply Nat.ltb_ge. unfold len. rewrite Hrows, length_app. simpl. lia. }
  rewrite Hlen, getitem_Ok by exact Hc. simpl.
  rewrite Hrows, map_app. simpl.
  destruct (iloc_neg_last2 (map (get column) earlier)
              (get column prevRow) (get column lastRow)) as [-> ->].
  simpl. destruct (get column prevRow) as [p|] eqn:Hp.
  - destruct Hmiss as [Hm|Hm]; [discriminate|]. rewrite Hm. simpl.
    assert (Hb : Qeq_bool p 0 = false).
    { apply not_true_is_false. intros Hb.
      apply (Hnz p eq_refl), Qeq_bool_iff, Hb. }
    rewrite Hb. reflexivity.
  - destruct (get column lastRow); reflexivity.
Qed.

Lemma calculate_delta_missing_witness :
  calculate_delta
    (mkFrame ["gov_exp_pct_gdp"]
       [afghanistan 2010 3.2%Q; mkRow "Afghanistan" (Some 2011) ∅])
    "gov_exp_pct_gdp" = Ok (None, None).
Proof.
  apply (calculate_delta_missing _ "gov_exp_pct_gdp"
           [] (afghanistan 2010 3.2%Q) (mkRow "Afghanistan" (Some 2011) ∅)).
  - simpl. left.
  - reflexivity.
  - right. reflexivity.
  - intros z Hz H. vm_compute in Hz. injection Hz as <-.
    vm_compute in H. discriminate.
Defined.

(** ** The two filters *)

Lemma frame_eq (a b : DataFrame) :
  columns a = columns b -> rows a = rows b -> a = b.
Proof. destruct a, b. simpl. intros -> ->. reflexivity. Qed.

Lemma List_filter_filter {A} (p q : A -> bool) (l : list A) :
  List.filter p (List.filter q l) = List.filter (fun x => q x && p x) l.
Proof.
  induction l as [|x l IH]; [reflexivity|].
  simpl. destruct (q x); simpl; [destruct (p x)|]; rewrite IH; reflexivity.
Qed.

Lemma List_filter_sublist {A} (p q : A -> bool) (l : list A) :
  (forall x, p x = true -> q x = true) ->
  List.filter p l `sublist_of` List.filter q l.
Proof.
  intros Hpq. induction l as [|x l IH]; [constructor|].
  simpl. destruct (p x) eqn:Hp.
  - rewrite (Hpq x Hp). constructor. exact IH.
  - destruct (q x); [constructor|]; exact IH.
Qed.

(** X4. Filtering a filtered view is filtering the table once, with the
    countries common to both selections and the intersection of the two
    year ranges. *)
Theorem Filter_Filter (table : DataFrame) (countries1 countries2 : list string)
    (lo1 hi1 lo2 hi2 : Z) :
  Filter (Filter table countries1 lo1 hi1) countries2 lo2 hi2
  = Filter table
      (List.filter (fun c => bool_decide (c ∈ countries2)) countries1)
      (Z.max lo1 lo2) (Z.min hi1 hi2).
Proof.
  apply frame_eq; [reflexivity|].
  rewrite (Filter_rows (Filter _ _ _ _)), !Filter_rows, List_filter_filter.
  apply List.filter_ext. intros r. apply eq_true_iff_eq.
  rewrite andb_true_iff, !keep_spec. unfold selected.
  rewrite (list_elem_of_In (List.filter _ _)), filter_In,
    <- list_elem_of_In, bool_decide_eq_true.
  split.
  - intros [[Hc1 (y & Hy & Hb1)] [Hc2 (y' & Hy' & Hb2)]].
    assert (y' = y) as -> by congruence.
    split; [tauto|]. exists y. split; [exact Hy | lia].
  - intros [[Hc1 Hc2] (y & Hy & Hb)].
    split; (split; [assumption|]); exists y; (split; [exact Hy | lia]).
Qed.

(** X5. Selecting fewer countries or a narrower year range keeps fewer
    rows: the narrower view is the wider one with rows left out, in the
    same order. *)
Theorem Filter_monotone (table : DataFrame) (countries1 countries2 : list string)
    (lo1 hi1 lo2 hi2 : Z) :
  countries1 ⊆ countries2 -> lo2 <= lo1 -> hi1 <= hi2 ->
  rows (Filter table countries1 lo1 hi1)
    `sublist_of` rows (Filter table countries2 lo2 hi2).
Proof.
  intros Hc Hlo Hhi. rewrite !Filter_rows. apply List_filter_sublist.
  intros r. rewrite !keep_spec. unfold selected.
  intros [Hin (y & Hy & Hb)]. split; [apply Hc, Hin|].
  exists y. split; [exact Hy | lia].
Qed.

Lemma Filter_monotone_witness :
  rows (Filter afghanistan_table ["Afghanistan"] 2011 2011)
    `sublist_of` rows (Filter afghanistan_table ["Afghanistan"; "France"] 2010 2012).
Proof.
  apply Filter_monotone.
  - intros c Hc. apply elem_of_cons. left.
    apply list_elem_of_singleton in Hc. exact Hc.
  - lia.
  - lia.
Defined.

(** X6. The year-only filter keeps exactly the rows of the table that
    have a year within the bounds, both included, in table order and with
    the table's columns; rows without a year are never kept, and the view
    is empty when the lower bound exceeds the upper one. *)
Theorem FilterYears_exact (table : DataFrame) (yearLow yearHigh : Z) :
  columns (FilterYears table yearLow yearHigh) = columns table
  /\ rows (FilterYears table yearLow yearHigh) `sublist_of` rows table
  /\ (forall r, r ∈ rows (FilterYears table yearLow yearHigh) <->
        r ∈ rows table /\
        exists y, year r = Some y /\ yearLow <= y <= yearHigh)
  /\ (yearLow > yearHigh -> rows (FilterYears table yearLow yearHigh) = []).
Proof.
  split; [reflexivity|]. rewrite FilterYears_rows. split; [|split].
  - induction (rows table) as [|r rs IH]; [constructor|].
    simpl. destruct (between_year yearLow yearHigh r); constructor; exact IH.
  - intros r. rewrite list_elem_of_In, filter_In, <- list_elem_of_In.
    rewrite between_year_spec. reflexivity.
  - intros Hgt. apply List_filter_none. intros r.
    apply not_true_is_false. rewrite between_year_spec.
    intros (y & _ & Hb). lia.
Qed.

Lemma FilterYears_exact_witness :
  2020 > 2010 /\ rows (FilterYears afghanistan_table 2020 2010) = [].
Proof.
  split; [lia|].
  apply (proj2 (proj2 (proj2 (FilterYears_exact afghanistan_table 2020 2010)))).
  lia.
Defined.

(** X7. The view of the comparison section is the year-filtered view of
    the map section restricted to the selected countries, when both use
    one year range; and the year-only filter is the full filter with
    every country of the table selected. *)
Theorem Filter_FilterYears (table : DataFrame) (countries : list string)
    (yearLow yearHigh : Z) :
  rows (Filter table countries yearLow yearHigh)
  = List.filter (fun r => bool_decide (country r ∈ countries))
                (rows (FilterYears table yearLow yearHigh))
  /\ FilterYears table yearLow yearHigh
     = Filter table (map country (rows table)) yearLow yearHigh.
Proof.
  split.
  - rewrite Filter_rows, FilterYears_rows, List_filter_filter.
    apply List.filter_ext. intros r. unfold keep. apply andb_comm.
  - apply frame_eq; [reflexivity|].
    rewrite Filter_rows, FilterYears_rows.
    apply filter_ext_in. intros r Hr. unfold keep.
    rewrite bool_decide_eq_true_2; [reflexivity|].
    apply list_elem_of_In, in_map, Hr.
Qed.

(** ** Means *)

Lemma elem_of_dropna (s : list cell) (x : Q) :
  x ∈ Series.dropna s <-> Some x ∈ s.
Proof.
  unfold Series.dropna. rewrite list_elem_of_omap. split.
  - intros (c & Hc & Hx). simpl in Hx. subst c. exact Hc.
  - intros Hx. exists (Some x). split; [exact Hx | reflexivity].
Qed.

Lemma mean_None_iff (s : list cell) :
  Series.mean s = None <-> forall c, c ∈ s -> c = None.
Proof.
  unfold Series.mean. destruct (Series.dropna s) as [|q qs] eqn:Hd.
  - split; [|reflexivity]. intros _ [x|] Hc; [|reflexivity].
    apply elem_of_dropna in Hc. rewrite Hd in Hc.
    exfalso. exact (not_elem_of_nil _ Hc).
  - split; [discriminate|]. intros Hall.
    assert (Hq : Some q ∈ s) by (apply elem_of_dropna; rewrite Hd; left).
    apply Hall in Hq. discriminate.
Qed.

(** X8. The mean shown on a metric card exists for every column of the
    view, and it is NaN exactly when no row of the view has a value in
    the column (an empty view included). *)
Theorem column_mean_value (view : DataFrame) (column : string) :
  column ∈ columns view ->
  exists v, column_mean view column = Ok v
    /\ (v = None <-> forall r, r ∈ rows view -> get column r = None).
Proof.
  intros Hc. exists (Series.mean (map (get column) (rows view))).
  split; [unfold column_mean; rewrite getitem_Ok by exact Hc; reflexivity|].
  rewrite mean_None_iff. split.
  - intros Hall r Hr. apply Hall, list_elem_of_fmap. eauto.
  - intros Hall c Hin. apply list_elem_of_fmap in Hin as (r & -> & Hr).
    apply Hall, Hr.
Qed.

Lemma column_mean_value_witness :
  exists v, column_mean afghanistan_table "gov_exp_pct_gdp" = Ok v
    /\ (v = None <->
        forall r, r ∈ rows afghanistan_table -> get "gov_exp_pct_gdp" r = None).
Proof.
  apply (column_mean_value afghanistan_table "gov_exp_pct_gdp").
  simpl. left.
Defined.

(** ** Grouped means *)

#[global] Instance String_leb_total :
  Total (fun a b : string => Is_true (String.leb a b)).
Proof.
  intros a b. destruct (String.leb_total a b) as [H|H]; rewrite H; simpl; auto.
Qed.

Lemma group_rows_by_country (c : string) (rs : list Row) :
  group_rows by_country c rs
  = List.filter (fun r => bool_decide (country r = c)) rs.
Proof.
  unfold group_rows, by_country. apply List.filter_ext. intros r.
  apply eq_true_iff_eq. rewrite !bool_decide_eq_true.
  split; congruence.
Qed.

Lemma elem_of_group_mean_by_country (column : string) (rs : list Row)
    (c : string) (v : cell) :
  (c, v) ∈ group_mean String.leb by_country column rs <->
  (exists r, r ∈ rs /\ country r = c) /\
  v = Series.mean (map (get column)
                       (List.filter (fun r => bool_decide (country r = c)) rs)).
Proof.
  unfold group_mean. rewrite list_elem_of_fmap. split.
  - intros (k & Hkv & Hk). injection Hkv as -> ->.
    apply elem_of_group_keys in Hk as (r & Hr & Hkey).
    unfold by_country in Hkey. injection Hkey as <-.
    split; [eauto|]. rewrite group_rows_by_country. reflexivity.
  - intros [(r & Hr & <-) ->]. exists (country r).
    rewrite group_rows_by_country. split; [reflexivity|].
    apply elem_of_group_keys. exists r. split; [exact Hr | reflexivity].
Qed.



(** ** The composite metric *)

Lemma get_set_cell_eq (label : string) (v : cell) (r : Row) :
  get label (set_cell label v r) = v.
Proof. unfold get, set_cell. simpl. rewrite lookup_insert_eq. reflexivity. Qed.

Lemma get_set_cell_ne (label c : string) (v : cell) (r : Row) :
  c ≠ label -> get c (set_cell label v r) = get c r.
Proof.
  intros Hc. unfold get, set_cell. simpl.
  rewrite lookup_insert_ne by congruence. reflexivity.
Qed.

Lemma zip_with_set_cell (label : string) (s : list cell) (rs : list Row) :
  length s = length rs ->
  map (get label) (zip_with (set_cell label) s rs) = s
  /\ (forall c, c ≠ label ->
        map (get c) (zip_with (set_cell label) s rs) = map (get c) rs)
  /\ map country (zip_with (set_cell label) s rs) = map country rs
  /\ map year (zip_with (set_cell label) s rs) = map year rs.
Proof.
  revert rs. induction s as [|v s IH]; intros [|r rs] Hlen;
    simpl in Hlen; try discriminate.
  - repeat split; reflexivity.
  - injection Hlen as Hlen. destruct (IH rs Hlen) as (H1 & H2 & H3 & H4).
    simpl. rewrite get_set_cell_eq, H1, H3, H4. repeat split.
    intros c Hc. rewrite get_set_cell_ne, H2 by exact Hc. reflexivity.
Qed.

Lemma elem_of_setitem_columns (view : DataFrame) (label : string)
    (s : list cell) (c : string) :
  c ∈ columns (setitem view label s) <-> c ∈ columns view \/ c = label.
Proof.
  unfold setitem. simpl. case_bool_decide as Hl.
  - split; [auto|]. intros [Hc| ->]; assumption.
  - rewrite elem_of_app, list_elem_of_singleton. reflexivity.
Qed.

(** X11. Assigning a series of the view's length to a column and reading
    the column back gives the series; every other column reads as before,
    and the countries and years of the rows are unchanged. *)
Theorem setitem_getitem (view : DataFrame) (label : string) (s : list cell) :
  length s = length (rows view) ->
  getitem (setitem view label s) label = Ok s
  /\ (forall c, c ≠ label ->
        getitem (setitem view label s) c = getitem view c)
  /\ map country (rows (setitem view label s)) = map country (rows view)
  /\ map year (rows (setitem view label s)) = map year (rows view).
Proof.
  intros Hlen.
  destruct (zip_with_set_cell label s (rows view) Hlen) as (H1 & H2 & H3 & H4).
  split; [|split; [|split; assumption]].
  - unfold getitem. rewrite bool_decide_eq_true_2.
    + simpl. rewrite H1. reflexivity.
    + apply elem_of_setitem_columns. right. reflexivity.
  - intros c Hc. unfold getitem.
    destruct (decide (c ∈ columns view)) as [Hin|Hin].
    + rewrite !bool_decide_eq_true_2;
        [|exact Hin | apply elem_of_setitem_columns; left; exact Hin].
      simpl. rewrite (H2 c Hc). reflexivity.
    + rewrite !bool_decide_eq_false_2; [reflexivity | exact Hin |].
      rewrite elem_of_setitem_columns. tauto.
Qed.

Lemma setitem_getitem_witness :
  getitem (setitem afghanistan_table "composite_metric" [Some 1%Q; None])
          "composite_metric" = Ok [Some 1%Q; None].
Proof.
  apply (proj1 (setitem_getitem afghanistan_table "composite_metric"
                  [Some 1%Q; None] eq_refl)).
Defined.

Lemma rows_with_composite (view : DataFrame) :
  rows (with_composite view)
  = map (fun r => set_cell "composite_metric"
                    (Series.mean (map (fun c => get c r) indicators)) r)
        (rows view).
Proof.
  unfold with_composite, setitem. simpl.
  induction (rows view) as [|r rs IH]; [reflexivity|].
  simpl. rewrite IH. reflexivity.
Qed.

(** X12. Line 141 gives every row, in place, a composite metric: the row
    keeps its country and year, and the metric is NaN exactly when all
    four indicators are missing in the row. *)
Theorem composite_metric_value (view : DataFrame) (i : nat) (r : Row) :
  rows view !! i = Some r ->
  exists r', rows (with_composite view) !! i = Some r'
    /\ country r' = country r /\ year r' = year r
    /\ (get "composite_metric" r' = None <->
        forall c, c ∈ indicators -> get c r = None).
Proof.
  intros Hi. eexists. rewrite rows_with_composite, list_lookup_fmap, Hi.
  split; [reflexivity|]. split; [reflexivity|]. split; [reflexivity|].
  rewrite get_set_cell_eq, mean_None_iff. split.
  - intros Hall c Hc. apply Hall, list_elem_of_fmap. eauto.
  - intros Hall v Hv. apply list_elem_of_fmap in Hv as (c & -> & Hc).
    apply Hall, Hc.
Qed.

Lemma composite_metric_value_witness :
  exists r', rows (with_composite full_table) !! 0%nat = Some r'
    /\ country r' = "United States" /\ year r' = Some 2015
    /\ (get "composite_metric" r' = None <->
        forall c, c ∈ indicators ->
          get c (observation "United States" 2015 4.9%Q 99%Q 100%Q) = None).
Proof.
  apply (composite_metric_value full_table 0
           (observation "United States" 2015 4.9%Q 99%Q 100%Q)).
  reflexivity.
Defined.

(** X13. A country has a composite score that is NaN exactly when none
    of its rows in the view has any of the four indicators. *)
Theorem composite_scores_missing (view : DataFrame) (c : string) :
  (c, None) ∈ composite_scores view <->
  (exists r, r ∈ rows view /\ country r = c) /\
  forall r indicator, r ∈ rows view -> country r = c ->
    indicator ∈ indicators -> get indicator r = None.
Proof.
  unfold composite_scores. rewrite elem_of_group_mean_by_country.
  rewrite rows_with_composite. split.
  - intros [(r' & Hr' & Hc) Hnone].
    apply list_elem_of_fmap in Hr' as (r & -> & Hr). simpl in Hc.
    split; [eauto|]. intros r0 ind Hr0 Hc0 Hind.
    symmetry in Hnone. rewrite mean_None_iff in Hnone.
    assert (Hrow : Series.mean (map (fun c => get c r0) indicators) = None).
    { apply Hnone. apply list_elem_of_fmap.
      exists (set_cell "composite_metric"
                (Series.mean (map (fun c => get c r0) indicators)) r0).
      split; [rewrite get_set_cell_eq; reflexivity|].
      apply list_elem_of_In, filter_In. split.
      - apply list_elem_of_In, list_elem_of_fmap. eauto.
      - apply bool_decide_eq_true. exact Hc0. }
    rewrite mean_None_iff in Hrow. apply Hrow, list_elem_of_fmap. eauto.
  - intros [(r & Hr & Hc) Hall]. split.
    + eexists. split; [apply list_elem_of_fmap; eauto | exact Hc].
    + symmetry. apply mean_None_iff. intros v Hv.
      apply list_elem_of_fmap in Hv as (r' & -> & Hr').
      apply list_elem_of_In, filter_In in Hr' as [Hr' Hc'].
      apply list_elem_of_In, list_elem_of_fmap in Hr' as (r0 & -> & Hr0).
      apply bool_decide_eq_true in Hc'. simpl in Hc'.
      rewrite get_set_cell_eq. apply mean_None_iff. intros x Hx.
      apply list_elem_of_fmap in Hx as (ind & -> & Hind).
      apply (Hall r0 ind Hr0 Hc' Hind).
Qed.

Lemma omap_by_country (rs : list Row) :
  omap by_country rs = map country rs.
Proof.
  induction rs as [|r rs IH]; [reflexivity|].
  simpl. f_equal; exact IH.
Qed.

Lemma length_composite_scores (view : DataFrame) :
  length (composite_scores view)
  = length (remove_dups (map country (rows view))).
Proof.
  unfold composite_scores, group_mean. rewrite length_map.
  unfold group_keys. rewrite merge_sort_Permutation, omap_by_country.
  rewrite rows_with_composite, <- list_fmap_compose.
  reflexivity.
Qed.

(** X14. With any sorting routine that meets the contract of
    [sort_values], the Top-10 table of a view has ten entries, or as many
    as the view has distinct countries when these are fewer. *)
Theorem top_10_size
    (sort_values : list (string * cell) -> list (string * cell))
    (view : DataFrame) :
  sort_contract sort_values ->
  length (TopN sort_values 10 (composite_scores view))
  = min 10 (length (remove_dups (map country (rows view)))).
Proof.
  intros Hsort. unfold TopN, head.
  rewrite length_take, (proj1 (Hsort _)), length_composite_scores.
  reflexivity.
Qed.

Lemma top_10_size_witness :
  length (TopN (merge_sort scored_ge) 10 (composite_scores full_table)) = 2%nat.
Proof.
  apply (top_10_size (merge_sort scored_ge) full_table merge_sort_contract).
Defined.

(** ** Runs of [app.py] *)


Lemma app_missing_indicator_witness :
  outcome (map_outputs (run_app (merge_sort scored_ge) table_without_completion
                          default_selection))
  = Raise (NameError "country_composite_scores").
Proof.
  apply (app_missing_indicator (merge_sort scored_ge) table_without_completion
           default_selection).
  - reflexivity.
  - simpl. left.
  - reflexivity.
Defined.

(** ** Runs of [heatmap.py] *)







Section GroupMeanFacts.
Context {K : Type} `{EqDecision K}.
Variable le : K -> K -> bool.
Variable key : Row -> option K.

Lemma elem_of_group_mean (column : string) (rs : list Row) (k : K) (v : cell) :
  (k, v) ∈ group_mean le key column rs <->
  k ∈ group_keys le key rs /\
  v = Series.mean (map (get column) (group_rows key k rs)).
Proof.
  unfold group_mean. rewrite list_elem_of_fmap. split.
  - intros (k' & Hkv & Hk). injection Hkv as -> ->. auto.
  - intros [Hk ->]. exists k. auto.
Qed.
End GroupMeanFacts.

(** X18. Every bubble of the bubble map belongs to a country that is on
    the heatmap; and when all rows of that country in the view carry the
    bubble's coordinates, the bubble shows the heatmap's value for the
    country. *)
Theorem bubble_matches_heatmap (view : DataFrame) (column : string)
    (heatmap : list (string * cell)) (bubbles : list (GeoKey * cell))
    (c : string) (la lo : Q) (v : cell) :
  GroupMean view column = Ok heatmap ->
  GroupMeanGeo view column = Ok bubbles ->
  ((c, la, lo), v) ∈ bubbles ->
  (exists w, (c, w) ∈ heatmap)
  /\ ((forall r, r ∈ rows view -> country r = c ->
         by_country_lat_lon r = Some (c, la, lo)) ->
      (c, v) ∈ heatmap).
Proof.
  unfold GroupMean, GroupMeanGeo. intros Hh Hb Hin.
  destruct (bool_decide (column ∈ columns view)); [|discriminate].
  destruct (negb (bool_decide ("latitude" ∈ columns view))); [discriminate|].
  destruct (negb (bool_decide ("longitude" ∈ columns view))); [discriminate|].
  injection Hh as <-. injection Hb as <-.
  apply elem_of_group_mean in Hin as [Hk ->].
  apply elem_of_group_keys in Hk as (r0 & Hr0 & Hkey0).
  assert (Hc0 : country r0 = c).
  { unfold by_country_lat_lon in Hkey0.
    destruct (get "latitude" r0); [|discriminate].
    destruct (get "longitude" r0); [|discriminate].
    congruence. }
  split.
  - eexists. apply elem_of_group_mean_by_country. split; [eauto | reflexivity].
  - intros Hall. apply elem_of_group_mean_by_country. split; [eauto|].
    f_equal. f_equal. unfold group_rows. apply filter_ext_in.
    intros r Hr. apply list_elem_of_In in Hr. apply eq_true_iff_eq.
    rewrite !bool_decide_eq_true. split.
    + unfold by_country_lat_lon.
      destruct (get "latitude" r); [|discriminate].
      destruct (get "longitude" r); [|discriminate].
      congruence.
    + apply Hall, Hr.
Qed.

Lemma bubble_matches_heatmap_witness :
  exists w, ("France", w)
            ∈ group_mean String.leb by_country "gov_exp_pct_gdp" (rows france_view).
Proof.
  eapply (proj1 (bubble_matches_heatmap france_view "gov_exp_pct_gdp" _ _
                   "France" 46%Q 2%Q (Some 5.5%Q) eq_refl eq_refl _)).
  Unshelve. apply list_elem_of_In. vm_compute. left. reflexivity.
Defined.

(** ** The comparison section *)

Lemma metric_card_summary (fd : DataFrame) (l : nat) (m : string) (st : state) :
  names st !! "filtered_data" = Some l -> heap st !! l = Some (Frame fd) ->
  m ∈ columns fd ->
  exists card,
    metric_card m st
    = (mkState (heap st) (names st) (next st) (page st ++ [card]), Ok tt)
    /\ card_of fd m card.
Proof.
  intros Hn Hh Hm. unfold metric_card, card_of, MetricSummary.
  rewrite run_bind, (frame_of_run _ _ _ _ Hn Hh), run_bind, lift_run.
  unfold column_mean. rewrite getitem_Ok by exact Hm. cbn [rbind].
  rewrite run_bind, (frame_of_run _ _ _ _ Hn Hh).
  unfold display_metric. rewrite run_bind, lift_run.
  destruct (calculate_delta_Ok fd m Hm) as (d & dp & ->).
  rewrite st_write_run. cbn [rbind].
  eexists. split; [reflexivity|]. eexists _, _, _. split; reflexivity.
Qed.

Lemma metrics_loop_cards (fd : DataFrame) (l : nat) (ms : list string) :
  forall st : state,
  names st !! "filtered_data" = Some l -> heap st !! l = Some (Frame fd) ->
  (forall m, m ∈ ms -> m ∈ columns fd) ->
  exists cards,
    for_each ms metric_card st
    = (mkState (heap st) (names st) (next st) (page st ++ cards), Ok tt)
    /\ Forall2 (card_of fd) ms cards.
Proof.
  induction ms as [|m ms IH]; intros st Hn Hh Hall.
  - exists []. rewrite app_nil_r, state_eta. split; [reflexivity | constructor].
  - cbn [for_each]. rewrite run_bind.
    destruct (metric_card_summary fd l m st Hn Hh) as (card & -> & Hcard);
      [apply Hall; left|].
    destruct (IH (mkState (heap st) (names st) (next st) (page st ++ [card]))
                Hn Hh) as (cards & -> & Hcards);
      [intros x Hx; apply Hall; right; exact Hx|].
    cbn [heap names next page]. exists (card :: cards).
    rewrite <- app_assoc. split; [reflexivity | constructor; assumption].
Qed.

Lemma for_each_app {A} (l1 l2 : list A) (body : A -> M unit) (st : state) :
  for_each (l1 ++ l2) body st
  = match for_each l1 body st with
    | (st', Ok _) => for_each l2 body st'
    | (st', Raise e) => (st', Raise e)
    end.
Proof.
  revert st. induction l1 as [|a l1 IH]; intros st; [reflexivity|].
  change ((a :: l1) ++ l2) with (a :: (l1 ++ l2)).
  cbn [for_each]. rewrite !run_bind.
  destruct (body a st) as [st' [[]|e]]; [apply IH | reflexivity].
Qed.



(** X20. A chosen metric that is not a column of the table stops the
    whole run of [app.py] with [KeyError] for the first such metric: the
    page then holds the two headings and the cards of the metrics chosen
    before it, and neither the comparison charts nor anything of the map
    section is drawn. *)
Theorem app_unknown_metric
    (sort_values : list (string * cell) -> list (string * cell))
    (table : DataFrame) (sel : Selection)
    (shown : list string) (unknown : string) (rest : list string) :
  sel_metrics sel = shown ++ unknown :: rest ->
  (forall m, m ∈ shown -> m ∈ columns table) ->
  unknown ∉ columns table ->
  let view := Filter table (sel_countries sel) (sel_years sel).1
                     (sel_years sel).2 in
  exists st cards,
    run_app sort_values table sel = (st, Raise (KeyError unknown))
    /\ Forall2 (card_of view) shown cards
    /\ page st
       = [ Title "Education Data Dashboard";
           Subheader "Comparative Analysis of Selected Countries" ] ++ cards.
Proof.
  intros Hms Hshown Hunknown view.
  unfold run_app, app. rewrite run_bind.
  unfold comparison_section, loaded.
  do 4 step. rewrite run_bind. unfold st_columns.
  rewrite Hms, length_app. cbn [length].
  replace (length shown + S (length rest) =? 0)%nat with false
    by (symmetry; apply Nat.eqb_neq; lia).
  unfold mret, M_ret. rewrite run_bind, for_each_app.
  edestruct (metrics_loop_cards view 1 shown) as (cards & -> & Hcards);
    [reflexivity | reflexivity | exact Hshown |].
  cbn [heap names next page for_each]. rewrite run_bind.
  erewrite (metric_card_absent view 1 unknown); [|reflexivity|reflexivity|exact Hunknown].
  eexists _, cards. split; [reflexivity|]. split; [exact Hcards|].
  reflexivity.
Qed.

Lemma app_unknown_metric_witness :
  exists st cards,
    run_app (merge_sort scored_ge) full_table selection_with_unknown_metric
    = (st, Raise (KeyError "literacy_rate"))
    /\ Forall2 (card_of (Filter full_table ["United States"] 2010 2020))
               ["gov_exp_pct_gdp"] cards.
Proof.
  destruct (app_unknown_metric (merge_sort scored_ge) full_table
              selection_with_unknown_metric
              ["gov_exp_pct_gdp"] "literacy_rate" ["school_enrol_primary_pct"])
    as (st & cards & Hrun & Hcards & _).
  - reflexivity.
  - intros m Hm. apply list_elem_of_singleton in Hm as ->.
    simpl. right. left.
  - intros Hin. apply list_elem_of_In in Hin. simpl in Hin.
    repeat (destruct Hin as [Hin|Hin]; [discriminate|]). exact Hin.
  - exists st, cards. split; assumption.
Defined.

(** ** The sidebar *)

Lemma foldr_min_max (y : Z) (ys : list Z) (x : Z) :
  x ∈ y :: ys -> foldr Z.min y ys <= x <= foldr Z.max y ys.
Proof.
  induction ys as [|z ys IH]; intros Hx.
  - apply list_elem_of_singleton in Hx as ->. simpl. lia.
  - simpl. apply elem_of_cons in Hx as [->|Hx].
    + specialize (IH ltac:(left)). lia.
    + apply elem_of_cons in Hx as [->|Hx]; [lia|].
      specialize (IH ltac:(right; exact Hx)). lia.
Qed.

(** X21. Selecting every country the sidebar offers and the full range
    of its year slider keeps all rows of the table that have a year, and
    so the whole table when no year is missing; the slider has no bounds
    exactly when no row has a year. *)
Theorem select_everything (data : DataFrame) :
  (year_bounds data = None <-> forall r, r ∈ rows data -> year r = None)
  /\ forall lo hi, year_bounds data = Some (lo, hi) ->
       rows (Filter data (country_options data) lo hi)
       = List.filter (fun r => bool_decide (is_Some (year r))) (rows data)
       /\ ((forall r, r ∈ rows data -> is_Some (year r)) ->
           Filter data (country_options data) lo hi = data).
Proof.
  unfold year_bounds. split.
  - destruct (omap year (rows data)) as [|y ys] eqn:Hy.
    + split; [|reflexivity]. intros _ r Hr.
      destruct (year r) as [z|] eqn:Hz; [|reflexivity].
      assert (Hin : z ∈ omap year (rows data))
        by (apply list_elem_of_omap; eauto).
      rewrite Hy in Hin. exfalso. exact (not_elem_of_nil _ Hin).
    + split; [discriminate|]. intros Hall.
      assert (Hin : y ∈ omap year (rows data)) by (rewrite Hy; left).
      apply list_elem_of_omap in Hin as (r & Hr & Hyr).
      rewrite (Hall r Hr) in Hyr. discriminate.
  - intros lo hi Hb.
    destruct (omap year (rows data)) as [|y ys] eqn:Hy; [discriminate|].
    injection Hb as <- <-.
    assert (Hrows : rows (Filter data (country_options data)
                            (foldr Z.min y ys) (foldr Z.max y ys))
                    = List.filter (fun r => bool_decide (is_Some (year r)))
                                  (rows data)).
    { rewrite Filter_rows. apply filter_ext_in. intros r Hr.
      apply list_elem_of_In in Hr. apply eq_true_iff_eq.
      rewrite keep_spec, bool_decide_eq_true. unfold selected. split.
      - intros [_ (z & Hz & _)]. rewrite Hz. eauto.
      - intros [z Hz]. split.
        + unfold country_options.
          rewrite merge_sort_Permutation, elem_of_remove_dups.
          apply list_elem_of_fmap. eauto.
        + exists z. split; [exact Hz|]. apply foldr_min_max.
          rewrite <- Hy. apply list_elem_of_omap. eauto. }
    split; [exact Hrows|].
    intros Hall. apply frame_eq; [reflexivity|]. rewrite Hrows.
    clear Hrows Hy. induction (rows data) as [|r rs IH]; [reflexivity|].
    simpl. rewrite bool_decide_eq_true_2 by (apply Hall; left).
    f_equal. apply IH. intros r' Hr'. apply Hall. right. exact Hr'.
Qed.

Lemma select_everything_witness :
  year_bounds afghanistan_table = Some (2010, 2011)
  /\ Filter afghanistan_table (country_options afghanistan_table) 2010 2011
     = afghanistan_table.
Proof.
  split; [reflexivity|].
  apply (proj2 (select_everything afghanistan_table) 2010 2011 eq_refl).
  intros r Hr. apply list_elem_of_In in Hr. simpl in Hr.
  destruct Hr as [<-|[<-|[]]]; simpl; eauto.
Defined.
